(** * nonchalant-hl-bot: browser-side UI scripts

    A shallow embedding of the three scripts of the repository:

    - the navigation drawer ([NavDrawer], src/unnamed/part_000),
    - the wallet-connect widget ([Wallet], src/static/js/wallet-connect.js,
      l.1-197),
    - the monitoring table fed by a server-push stream ([Monitor],
      src/static/js/wallet-connect.js, l.198-270).

    JavaScript strings are sequences of UTF-16 code units; module-level
    variables and the parts of the document the scripts touch are explicit
    state; [async] functions are resumptions that suspend at every [await]. *)

From Stdlib Require Import String Ascii.
From Stdlib Require Import List ZArith NArith Lia Bool DecimalString.
Import ListNotations.

Set Implicit Arguments.

(** ** JavaScript strings *)

Module JS.

(** A JavaScript string: its UTF-16 code units. [length] and [slice] of the
    source count code units. *)
Definition jsstring := list N.

(** A literal of the source written in ASCII. *)
Definition lit (s : string) : jsstring :=
  map N_of_ascii (list_ascii_of_string s).
Arguments lit s%_string.

Definition jsstring_eqb (a b : jsstring) : bool :=
  if list_eq_dec N.eq_dec a b then true else false.

(** The character the specification calls the ellipsis, U+2026. *)
Definition ellipsis : N := 8230%N.

(** A relative index of [slice]: negative counts from the end, and the
    result is clamped to [0, len]. *)
Definition clamp_index (len k : Z) : Z :=
  if (k <? 0)%Z then Z.max (len + k) 0 else Z.min k len.

(** [String.prototype.slice(start, end)] and [Array.prototype.slice]; an
    omitted [end] is the length. *)
Definition slice {A : Type} (s : list A) (start : Z) (end_ : option Z) : list A :=
  let len := Z.of_nat (length s) in
  let from := clamp_index len start in
  let to := match end_ with
            | None => len
            | Some e => clamp_index len e
            end in
  firstn (Z.to_nat (to - from)) (skipn (Z.to_nat from) s).

(** The first [n] and the last [n] elements, as the specification words
    them. *)
Definition first_chars {A : Type} (n : nat) (s : list A) : list A := firstn n s.
Definition last_chars {A : Type} (n : nat) (s : list A) : list A :=
  skipn (length s - n) s.

(** [String(value)] of a variable that holds a string or [undefined]. *)
Definition to_string (v : option jsstring) : jsstring :=
  match v with
  | Some s => s
  | None => lit "undefined"
  end.

(** Truthiness of a string-or-undefined value: [undefined] and the empty
    string are falsy. *)
Definition truthy (v : option jsstring) : bool :=
  match v with
  | Some (_ :: _) => true
  | _ => false
  end.

(** A list with [c] appended unless it is there, and a list without every
    element equal to [c]: what [classList.add], [addEventListener],
    [classList.remove] and [removeEventListener] do to a list. *)
Definition add_once {A : Type} (eqb : A -> A -> bool) (c : A) (l : list A) : list A :=
  if existsb (eqb c) l then l else l ++ [c].

Definition drop_all {A : Type} (eqb : A -> A -> bool) (c : A) (l : list A) : list A :=
  filter (fun c' => negb (eqb c c')) l.

End JS.

(** ** Navigation drawer (src/unnamed/part_000) *)

Module NavDrawer.

(** DOM nodes are compared by identity ([===]); a node is its number. *)
Definition Elem := nat.

(** What a DOM call throws. *)
Inductive Err : Type :=
| SyntaxError.

(** How a call of a handler ends. *)
Inductive Completion : Type :=
| Normal
| Threw (e : Err).

(** [focusableSelector] (l.8-15): the six selectors joined by commas. *)
Definition focusableSelector : string :=
  "a[href],button:not([disabled]),textarea:not([disabled]),input[type!='hidden']:not([disabled]),select:not([disabled]),[tabindex]:not([tabindex='-1'])".

(** Where the scanner of attribute selectors stands. *)
Inductive ScanState : Type :=
| Outside
| InName
| InValue.

Definition is_name_char (c : ascii) : bool :=
  let n := nat_of_ascii c in
  ((97 <=? n) && (n <=? 122)) || ((65 <=? n) && (n <=? 90))
  || ((48 <=? n) && (n <=? 57)) || (n =? 45) || (n =? 95).

(** The first character of a two-character attribute matcher:
    [~=], [|=], [^=], [$=], [*=]. *)
Definition is_matcher_prefix (c : ascii) : bool :=
  let n := nat_of_ascii c in
  (n =? 126) || (n =? 124) || (n =? 94) || (n =? 36) || (n =? 42).

(** The attribute selectors of a selector text, as the grammar of CSS
    selectors has them (Selectors, "Attribute selectors"): after [[] and
    the attribute name comes []], [=] or one of [~= |= ^= $= *=]. Any
    other character there makes the whole selector list invalid; the
    [!=] matcher is an extension of jQuery that the grammar does not
    have. *)
Fixpoint attr_selectors_ok (st : ScanState) (cs : list ascii) : bool :=
  match cs with
  | [] => match st with Outside => true | _ => false end
  | c :: rest =>
      match st with
      | Outside =>
          if (nat_of_ascii c =? 91) then attr_selectors_ok InName rest
          else attr_selectors_ok Outside rest
      | InName =>
          if is_name_char c || (nat_of_ascii c =? 32)
          then attr_selectors_ok InName rest
          else if (nat_of_ascii c =? 93) then attr_selectors_ok Outside rest
          else if (nat_of_ascii c =? 61) then attr_selectors_ok InValue rest
          else if is_matcher_prefix c then
            match rest with
            | c' :: rest' =>
                if (nat_of_ascii c' =? 61) then attr_selectors_ok InValue rest'
                else false
            | [] => false
            end
          else false
      | InValue =>
          if (nat_of_ascii c =? 93) then attr_selectors_ok Outside rest
          else attr_selectors_ok InValue rest
      end
  end.

Definition selector_valid (sel : string) : bool :=
  attr_selectors_ok Outside (list_ascii_of_string sel).

(** A descendant of the drawer, with what the filter of [getFocusable]
    reads of it. *)
Record Node : Type := {
  node : Elem;
  offsetParent_null : bool
}.

Record State : Type := {
  (** [drawer.hidden] *)
  hidden : bool;
  (** whether [document.body.classList] holds "is-nav-open" *)
  is_nav_open : bool;
  (** the [aria-expanded] attribute of each toggle button *)
  aria_expanded : list (option bool);
  (** [lastActiveElement] (l.17) *)
  lastActiveElement : option Elem;
  (** [document.activeElement] *)
  activeElement : option Elem;
  (** whether [handleKeydown] is a keydown listener of the document *)
  keydown_listener : bool;
  (** whether [handleClickOutside] is a capturing click listener *)
  click_listener : bool;
  (** the descendants of the drawer that match a selector the browser
      accepts, in document order; the page may change them at any time *)
  matching : string -> list Node;
  (** whether [el.focus()] moves the focus to the element: it does nothing
      on an element that is not focusable ([document.body], an element
      that is disabled, not rendered or no longer in the document); the
      page may change this at any time *)
  takes_focus : Elem -> bool
}.

Definition set_hidden (b : bool) (s : State) : State :=
  {| hidden := b; is_nav_open := is_nav_open s;
     aria_expanded := aria_expanded s;
     lastActiveElement := lastActiveElement s;
     activeElement := activeElement s;
     keydown_listener := keydown_listener s;
     click_listener := click_listener s; matching := matching s;
     takes_focus := takes_focus s |}.

Definition set_is_nav_open (b : bool) (s : State) : State :=
  {| hidden := hidden s; is_nav_open := b;
     aria_expanded := aria_expanded s;
     lastActiveElement := lastActiveElement s;
     activeElement := activeElement s;
     keydown_listener := keydown_listener s;
     click_listener := click_listener s; matching := matching s;
     takes_focus := takes_focus s |}.

Definition set_lastActiveElement (e : option Elem) (s : State) : State :=
  {| hidden := hidden s; is_nav_open := is_nav_open s;
     aria_expanded := aria_expanded s;
     lastActiveElement := e;
     activeElement := activeElement s;
     keydown_listener := keydown_listener s;
     click_listener := click_listener s; matching := matching s;
     takes_focus := takes_focus s |}.

Definition set_listeners (b : bool) (s : State) : State :=
  {| hidden := hidden s; is_nav_open := is_nav_open s;
     aria_expanded := aria_expanded s;
     lastActiveElement := lastActiveElement s;
     activeElement := activeElement s;
     keydown_listener := b;
     click_listener := b; matching := matching s;
     takes_focus := takes_focus s |}.

Definition set_activeElement (e : option Elem) (s : State) : State :=
  {| hidden := hidden s; is_nav_open := is_nav_open s;
     aria_expanded := aria_expanded s;
     lastActiveElement := lastActiveElement s;
     activeElement := e;
     keydown_listener := keydown_listener s;
     click_listener := click_listener s; matching := matching s;
     takes_focus := takes_focus s |}.

(** [el.focus()]: the element becomes [document.activeElement] when it
    takes the focus, and nothing happens when it does not. *)
Definition focus (e : Elem) (s : State) : State :=
  if takes_focus s e then set_activeElement (Some e) s else s.

(** [setAria] (l.25-27) *)
Definition setAria (expanded : bool) (s : State) : State :=
  {| hidden := hidden s; is_nav_open := is_nav_open s;
     aria_expanded := map (fun _ => Some expanded) (aria_expanded s);
     lastActiveElement := lastActiveElement s;
     activeElement := activeElement s;
     keydown_listener := keydown_listener s;
     click_listener := click_listener s; matching := matching s;
     takes_focus := takes_focus s |}.

(** [drawer.querySelectorAll(sel)]: a [SyntaxError] on a selector the
    grammar refuses, the matching descendants otherwise. *)
Definition querySelectorAll (sel : string) (s : State) : Err + list Node :=
  if selector_valid sel then inr (matching s sel) else inl SyntaxError.

(** [getFocusable] (l.19-23). The results are descendants of the drawer,
    so [drawer === el] is false for each of them. *)
Definition getFocusable (s : State) : Err + list Elem :=
  match querySelectorAll focusableSelector s with
  | inl e => inl e
  | inr found =>
      inr (map node (filter (fun el => negb (offsetParent_null el) || false) found))
  end.

(** [openDrawer] (l.29-41): the state after the call, and how it ended. *)
Definition openDrawer (s : State) : State * Completion :=
  if negb (hidden s) then (s, Normal)
  else
    let s := set_lastActiveElement (activeElement s) s in
    let s := set_hidden false s in
    let s := set_is_nav_open true s in
    let s := setAria true s in
    match getFocusable s with
    | inl e => (s, Threw e)
    | inr focusable =>
        let s := match focusable with
                 | first :: _ => focus first s
                 | [] => s
                 end in
        (set_listeners true s, Normal)
    end.

(** [closeDrawer] (l.43-53). An element without a [focus] method is one
    that does not take the focus. *)
Definition closeDrawer (s : State) : State * Completion :=
  if hidden s then (s, Normal)
  else
    let s := set_hidden true s in
    let s := set_is_nav_open false s in
    let s := setAria false s in
    let s := set_listeners false s in
    match lastActiveElement s with
    | Some e => (focus e s, Normal)
    | None => (s, Normal)
    end.

Inductive Key : Type :=
| Escape
| Tab
| OtherKey.

Record KeyEvent : Type := {
  key : Key;
  shiftKey : bool
}.

(** What a keydown handler leaves behind: the state, whether it called
    [event.preventDefault()], and how it ended. When the default is not
    prevented the browser goes on to its own Tab navigation. *)
Record Handled : Type := {
  after : State;
  defaultPrevented : bool;
  completion : Completion
}.

Definition elem_eqb (a : option Elem) (b : Elem) : bool :=
  match a with
  | Some x => Nat.eqb x b
  | None => false
  end.

(** The focus trap of [handleKeydown] (l.66-80), for the list that
    [getFocusable] returned. *)
Definition cycleFocus (focusable : list Elem) (event : KeyEvent) (s : State) : Handled :=
  match focusable with
  | [] => {| after := s; defaultPrevented := true; completion := Normal |}
  | first :: rest =>
      let last := List.last rest first in
      if negb (shiftKey event) && elem_eqb (activeElement s) last then
        {| after := focus first s; defaultPrevented := true;
           completion := Normal |}
      else if shiftKey event && elem_eqb (activeElement s) first then
        {| after := focus last s; defaultPrevented := true;
           completion := Normal |}
      else
        {| after := s; defaultPrevented := false; completion := Normal |}
  end.

(** [handleKeydown] (l.55-81) *)
Definition handleKeydown (event : KeyEvent) (s : State) : Handled :=
  match key event with
  | Escape =>
      let '(s', c) := closeDrawer s in
      {| after := s'; defaultPrevented := true; completion := c |}
  | OtherKey =>
      {| after := s; defaultPrevented := false; completion := Normal |}
  | Tab =>
      match getFocusable s with
      | inl e => {| after := s; defaultPrevented := false; completion := Threw e |}
      | inr focusable => cycleFocus focusable event s
      end
  end.

(** [handleClickOutside] (l.83-88); [inside] is [drawer.contains(event.target)]. *)
Definition handleClickOutside (inside : bool) (s : State) : State * Completion :=
  if inside then (s, Normal) else closeDrawer s.

(** The click listener of a toggle button (l.90-98). *)
Definition toggleClick (s : State) : State * Completion :=
  if hidden s then openDrawer s else closeDrawer s.

(** A call of the drawer's interface. *)
Inductive Call : Type :=
| Open
| Close.

Definition call (c : Call) (s : State) : State :=
  match c with
  | Open => fst (openDrawer s)
  | Close => fst (closeDrawer s)
  end.

(** Calls made one after the other; a call that throws ends its own
    event handler only. *)
Definition calls (cs : list Call) (s : State) : State :=
  fold_left (fun s c => call c s) cs s.

(** The visible state a call asks for: [true] is shown. *)
Definition implied (c : Call) : bool :=
  match c with
  | Open => true
  | Close => false
  end.

Definition visible (s : State) : bool := negb (hidden s).

(** What the browser does with a keydown while the drawer is open: it runs
    [handleKeydown] when that listener is installed. *)
Definition dispatchKeydown (event : KeyEvent) (s : State) : Handled :=
  if keydown_listener s then handleKeydown event s
  else {| after := s; defaultPrevented := false; completion := Normal |}.

(** The click listener of a link of the drawer (l.100-106) and the resize
    listener of the window (l.108-112); [narrow] is
    [window.matchMedia("(max-width: 1024px)").matches]. *)
Definition linkClick (narrow : bool) (s : State) : State * Completion :=
  if narrow then closeDrawer s else (s, Normal).

Definition handleResize (narrow : bool) (s : State) : State * Completion :=
  if negb narrow then closeDrawer s else (s, Normal).

(** What the browser does with a click anywhere in the document: the
    capturing listener [handleClickOutside] runs first, when it is
    installed; [inside] is [drawer.contains(event.target)]. *)
Definition dispatchClick (inside : bool) (s : State) : State :=
  if click_listener s then fst (handleClickOutside inside s) else s.

(** What the page can deliver to the script. A click on a toggle button
    or on a link first passes the capturing listener of the document; a
    link of the drawer is inside the drawer. *)
Inductive Event : Type :=
| ToggleClick (inside : bool)
| LinkClick (narrow : bool)
| Resize (narrow : bool)
| Keydown (event : KeyEvent)
| ClickElsewhere (inside : bool).

Definition dispatch (e : Event) (s : State) : State :=
  match e with
  | ToggleClick inside => fst (toggleClick (dispatchClick inside s))
  | LinkClick narrow => fst (linkClick narrow (dispatchClick true s))
  | Resize narrow => fst (handleResize narrow s)
  | Keydown event => after (dispatchKeydown event s)
  | ClickElsewhere inside => dispatchClick inside s
  end.

Definition events (es : list Event) (s : State) : State :=
  fold_left (fun s e => dispatch e s) es s.

(** The body class and the [aria-expanded] of every toggle button agree
    with whether the drawer is shown. *)
Definition in_sync (s : State) : Prop :=
  is_nav_open s = visible s
  /\ Forall (fun a => a = Some (visible s)) (aria_expanded s).

End NavDrawer.

(** ** Monitoring table (src/static/js/wallet-connect.js, l.198-270) *)

Module Monitor.
Import JS.

(** JavaScript numbers are IEEE doubles: the number type and what the
    script reads of a number are an interface of the model. *)
Class Numbers : Type := {
  Num : Type;
  (** a number is truthy unless it is [0], [-0] or [NaN] *)
  num_truthy : Num -> bool;
  (** [String(n)] *)
  num_to_string : Num -> jsstring
}.

Section WithNumbers.

Context {numbers : Numbers}.

(** What [JSON.parse] returns, and [undefined] for a property that is not
    there. *)
#[warnings="-register-all"]
Inductive JsVal : Type :=
| JUndef
| JNull
| JBool (b : bool)
| JNum (n : Num)
| JStr (s : jsstring)
| JArr (items : list JsVal)
| JObj (fields : list (jsstring * JsVal)).

(** A table cell: its classes and its markup. *)
Record Td : Type := {
  td_classes : list string;
  td_html : jsstring
}.

(** A row of the table body. A row without an [id] has the empty one. *)
Record Tr : Type := {
  tr_id : jsstring;
  tr_cells : list Td
}.

(** What the script takes from the platform: [JSON.parse] ([None] when it
    throws); [formatNum] (l.199-207), which rests on [Number] and on the
    locale of [toLocaleString]; the sum of l.221,
    [Number(realized || 0) + Number(unrealized || 0)]; and the parser of
    the browser, which makes the cells of a row out of the markup assigned
    to its [innerHTML]. *)
Class Platform : Type := {
  JSON_parse : jsstring -> option JsVal;
  formatNum : JsVal -> jsstring;
  pnl_sum : JsVal -> JsVal -> Num;
  parse_cells : jsstring -> list Td
}.

Context {platform : Platform}.

Definition truthy (v : JsVal) : bool :=
  match v with
  | JUndef | JNull => false
  | JBool b => b
  | JNum n => num_truthy n
  | JStr s => match s with [] => false | _ :: _ => true end
  | JArr _ | JObj _ => true
  end.

Fixpoint lookup (k : jsstring) (fields : list (jsstring * JsVal)) : JsVal :=
  match fields with
  | [] => JUndef
  | (k', v) :: rest => if jsstring_eqb k' k then v else lookup k rest
  end.

(** [v.name] for a property name that no prototype defines (the names the
    script reads are [ok], [data] and the fields of a snapshot); the script
    reads a property only of a value it has found truthy. *)
Definition prop (v : JsVal) (name : string) : JsVal :=
  match v with
  | JObj fields => lookup (lit name) fields
  | _ => JUndef
  end.

(** [String(v)], as a template literal applies it. *)
Fixpoint to_str (v : JsVal) : jsstring :=
  match v with
  | JUndef => lit "undefined"
  | JNull => lit "null"
  | JBool true => lit "true"
  | JBool false => lit "false"
  | JNum n => num_to_string n
  | JStr s => s
  | JArr items =>
      (fix join (l : list JsVal) : jsstring :=
         match l with
         | [] => []
         | x :: rest =>
             let shown := match x with
                          | JUndef | JNull => []
                          | _ => to_str x
                          end in
             match rest with
             | [] => shown
             | _ :: _ => shown ++ lit "," ++ join rest
             end
         end) items
  | JObj _ => lit "[object Object]"
  end.

(** [v.slice(start, end)]: strings and arrays have the method; on any
    other value the call throws a [TypeError] ([None]). *)
Definition call_slice (v : JsVal) (start : Z) (end_ : option Z) : option JsVal :=
  match v with
  | JStr s => Some (JStr (slice s start end_))
  | JArr items => Some (JArr (slice items start end_))
  | _ => None
  end.



(** The [id] of the row of a run, [`run-${run_id}`]. *)
Definition row_id (run_id : JsVal) : jsstring := lit "run-" ++ to_str run_id.

(** The double quote and the line feed, which the template literal of
    [renderRow] holds. *)
Definition quote : jsstring := [34%N].
Definition newline : jsstring := [10%N].

(** The template literal of l.212-223, with the line feeds and the
    indentation it has in the source: the field values are put into the
    markup as they are, nothing is escaped. [None] when [s.run_id.slice]
    throws. *)
Definition row_markup (s : JsVal) : option jsstring :=
  let run_id := prop s "run_id" in
  match call_slice run_id 0 (Some 6%Z), call_slice run_id (-4) None with
  | Some head, Some tail =>
      Some (newline
            ++ lit "      <td><code title=" ++ quote ++ to_str run_id ++ quote
            ++ lit ">" ++ to_str head ++ [ellipsis] ++ to_str tail
            ++ lit "</code></td>" ++ newline
            ++ lit "      <td>" ++ to_str (prop s "market") ++ lit "</td>"
            ++ newline
            ++ lit "      <td>" ++ to_str (prop s "status") ++ lit "</td>"
            ++ newline
            ++ lit "      <td class=" ++ quote ++ lit "cell-num" ++ quote
            ++ lit ">" ++ formatNum (prop s "position_notional")
            ++ lit "</td>" ++ newline
            ++ lit "      <td class=" ++ quote ++ lit "cell-num" ++ quote
            ++ lit ">" ++ formatNum (prop s "entry_price")
            ++ lit "</td>" ++ newline
            ++ lit "      <td class=" ++ quote ++ lit "cell-num" ++ quote
            ++ lit ">" ++ formatNum (prop s "mark_price")
            ++ lit "</td>" ++ newline
            ++ lit "      <td class=" ++ quote ++ lit "cell-num" ++ quote
            ++ lit ">" ++ formatNum (prop s "unrealized_pnl")
            ++ lit "</td>" ++ newline
            ++ lit "      <td class=" ++ quote ++ lit "cell-num" ++ quote
            ++ lit ">" ++ formatNum (prop s "realized_pnl")
            ++ lit "</td>" ++ newline
            ++ lit "      <td class=" ++ quote ++ lit "cell-num" ++ quote
            ++ lit "><strong>"
            ++ formatNum (JNum (pnl_sum (prop s "realized_pnl")
                                  (prop s "unrealized_pnl")))
            ++ lit "</strong></td>" ++ newline
            ++ lit "      <td>" ++ to_str (prop s "timestamp") ++ lit "</td>"
            ++ newline
            ++ lit "    ")
  | _, _ => None
  end.

(** [renderRow] (l.209-225): a new row with its [id] and, as its cells,
    what the browser parses out of the markup; [None] when the template
    literal throws. *)
Definition renderRow (s : JsVal) : option Tr :=
  match row_markup s with
  | Some markup =>
      Some {| tr_id := row_id (prop s "run_id");
              tr_cells := parse_cells markup |}
  | None => None
  end.

(** [document.getElementById(id)]: the position of the first row with that
    [id]. The rows of the table are the only elements of the page whose
    [id] starts with [run-]. *)
Fixpoint getElementById (id : jsstring) (rows : list Tr) : option nat :=
  match rows with
  | [] => None
  | r :: rest =>
      if jsstring_eqb (tr_id r) id then Some 0
      else option_map S (getElementById id rest)
  end.

Definition has_class (c : string) (td : Td) : bool :=
  existsb (String.eqb c) (td_classes td).

(** A row that holds a cell of class [cell-empty]: the placeholder. *)
Definition is_placeholder (r : Tr) : bool :=
  existsb (has_class "cell-empty") (tr_cells r).

(** [tbody.querySelector('.cell-empty')], as the position of the row that
    is the [parentElement] of the cell found. The cells are the only
    elements of the table of class [cell-empty]. *)
Fixpoint querySelector_cell_empty (rows : list Tr) : option nat :=
  match rows with
  | [] => None
  | r :: rest =>
      if is_placeholder r then Some 0
      else option_map S (querySelector_cell_empty rest)
  end.

(** [existing.replaceWith(row)] for the row at position [i]. *)
Fixpoint replaceWith (i : nat) (row : Tr) (rows : list Tr) : list Tr :=
  match rows, i with
  | [], _ => []
  | _ :: rest, O => row :: rest
  | r :: rest, S j => r :: replaceWith j row rest
  end.

(** [el.remove()] for the row at position [i]. *)
Fixpoint remove_at (i : nat) (rows : list Tr) : list Tr :=
  match rows, i with
  | [], _ => []
  | _ :: rest, O => rest
  | r :: rest, S j => r :: remove_at j rest
  end.

(** An [EventSource]: closed or not. *)
Record Source : Type := {
  url : string;
  closed : bool
}.

(** What [setTimeout] is given as its callback. *)
Inductive Callback : Type :=
| ConnectSSE.

Record Timer : Type := {
  callback : Callback;
  delay_ms : nat
}.

Record State : Type := {
  (** the rows of [#monitor-rows], [None] when the page has no such body *)
  monitor_rows : option (list Tr);
  (** the event sources created so far, oldest first *)
  sources : list Source;
  (** the timers that are set and have not fired, oldest first *)
  timers : list Timer;
  (** what [console.warn] was given *)
  console : list string
}.

Definition set_rows (rows : option (list Tr)) (s : State) : State :=
  {| monitor_rows := rows; sources := sources s; timers := timers s;
     console := console s |}.

Definition set_sources (l : list Source) (s : State) : State :=
  {| monitor_rows := monitor_rows s; sources := l; timers := timers s;
     console := console s |}.

Definition set_timers (l : list Timer) (s : State) : State :=
  {| monitor_rows := monitor_rows s; sources := sources s; timers := l;
     console := console s |}.

Definition warn (msg : string) (s : State) : State :=
  {| monitor_rows := monitor_rows s; sources := sources s; timers := timers s;
     console := console s ++ [msg] |}.

(** [upsertRow] (l.227-240) on the rows of the table; [None] when it
    throws, which [renderRow] does before the table is touched. *)
Definition upsertRow (snapshot : JsVal) (s : State) : option State :=
  match monitor_rows s with
  | None => Some s
  | Some rows =>
      let existing := getElementById (row_id (prop snapshot "run_id")) rows in
      match renderRow snapshot with
      | None => None
      | Some row =>
          match existing with
          | Some i => Some (set_rows (Some (replaceWith i row rows)) s)
          | None =>
              let rows := match querySelector_cell_empty rows with
                          | Some i => remove_at i rows
                          | None => rows
                          end in
              Some (set_rows (Some (rows ++ [row])) s)
          end
      end
  end.

(** [es.onmessage] (l.245-254) *)
Definition onmessage (data : jsstring) (s : State) : State :=
  match JSON_parse data with
  | None => warn "SSE parse error" s
  | Some payload =>
      if truthy payload && truthy (prop payload "ok")
         && truthy (prop payload "data")
      then match upsertRow (prop payload "data") s with
           | Some s' => s'
           | None => warn "SSE parse error" s
           end
      else s
  end.

(** [es.close()] for the source at position [i]. *)
Fixpoint close_at (i : nat) (l : list Source) : list Source :=
  match l, i with
  | [], _ => []
  | es :: rest, O => {| url := url es; closed := true |} :: rest
  | es :: rest, S j => es :: close_at j rest
  end.

(** [setTimeout(cb, ms)] *)
Definition setTimeout (cb : Callback) (ms : nat) (s : State) : State :=
  set_timers (timers s ++ [{| callback := cb; delay_ms := ms |}]) s.

(** [es.onerror] (l.255-259) of the source at position [i]. *)
Definition onerror (i : nat) (s : State) : State :=
  setTimeout ConnectSSE 1500 (set_sources (close_at i (sources s)) s).

(** [connectSSE] (l.242-263). The constructor is given a constant,
    well-formed URL and does not throw. *)
Definition connectSSE (s : State) : State :=
  set_sources (sources s ++ [{| url := "/monitoring/stream"; closed := false |}]) s.

Definition run_callback (cb : Callback) (s : State) : State :=
  match cb with
  | ConnectSSE => connectSSE s
  end.

Definition is_open (i : nat) (s : State) : bool :=
  match nth_error (sources s) i with
  | Some es => negb (closed es)
  | None => false
  end.

Fixpoint remove_timer (j : nat) (l : list Timer) : list Timer :=
  match l, j with
  | [], _ => []
  | _ :: rest, O => rest
  | t :: rest, S k => t :: remove_timer k rest
  end.

(** What the browser delivers to the script. A closed source gets no
    event. *)
Inductive Event : Type :=
| Message (i : nat) (data : jsstring)
| Error (i : nat)
| Fire (j : nat).

Definition step (e : Event) (s : State) : State :=
  match e with
  | Message i data => if is_open i s then onmessage data s else s
  | Error i => if is_open i s then onerror i s else s
  | Fire j =>
      match nth_error (timers s) j with
      | Some t => run_callback (callback t) (set_timers (remove_timer j (timers s)) s)
      | None => s
      end
  end.

(** One failure of the newest source and the reconnection that follows:
    the error event, then the timer it set. *)
Definition retry (s : State) : State :=
  let s' := step (Error (length (sources s) - 1)) s in
  step (Fire (length (timers s') - 1)) s'.

Fixpoint retries (n : nat) (s : State) : State :=
  match n with
  | O => s
  | S k => retries k (retry s)
  end.

(** How many rows carry an [id]. *)
Definition count_id (id : jsstring) (rows : list Tr) : nat :=
  length (filter (fun r => jsstring_eqb (tr_id r) id) rows).

(** The rows without their first placeholder, as the specification words
    the removal. *)
Fixpoint without_first_placeholder (rows : list Tr) : list Tr :=
  match rows with
  | [] => []
  | r :: rest =>
      if is_placeholder r then rest else r :: without_first_placeholder rest
  end.


Definition open_count (s : State) : nat :=
  length (filter (fun es => negb (closed es)) (sources s)).


(** The timer [onerror] sets. *)
Definition reconnect_timer : Timer :=
  {| callback := ConnectSSE; delay_ms := 1500 |}.

(** The events of a list, delivered in turn. *)
Definition deliver (es : list Event) (s : State) : State :=
  fold_left (fun s e => step e s) es s.

(** The values that have a [slice] method. *)
Definition sliceable (v : JsVal) : bool :=
  match v with
  | JStr _ | JArr _ => true
  | _ => false
  end.

(** The rows of the table, none when the page has no table body. *)
Definition rows_of (s : State) : list Tr :=
  match monitor_rows s with
  | Some rows => rows
  | None => []
  end.

End WithNumbers.

End Monitor.

(** ** Wallet connect (src/static/js/wallet-connect.js, l.1-197) *)

Module Wallet.
Import JS.

(** *** The document, the window and the module's variables *)

(** The two click handlers the script binds to the button. *)
Inductive Handler : Type :=
| HandleConnectClick
| HandleDisconnectClick.

Definition handler_eqb (a b : Handler) : bool :=
  match a, b with
  | HandleConnectClick, HandleConnectClick => true
  | HandleDisconnectClick, HandleDisconnectClick => true
  | _, _ => false
  end.

(** An element of the page, with what the script reads and writes of it. *)
Record Element : Type := {
  textContent : jsstring;
  classList : list string;
  click_listeners : list Handler;
  (** [dataset.connectedAddress], [dataset.state], [dataset.projectId] *)
  data_connectedAddress : option jsstring;
  data_state : option jsstring;
  data_projectId : option jsstring
}.

(** A Web3Modal instance, as the script probes it. *)
Record Modal : Type := {
  has_openModal : bool;
  has_getWalletProvider : bool
}.

(** [window.ethereum], as the script probes it. *)
Record Ethereum : Type := {
  has_request : bool;
  has_on : bool
}.

(** What a [BrowserProvider] is built from. *)
Inductive RawProvider : Type :=
| ModalProvider (handle : nat)
| InjectedProvider.

Inductive Provider : Type :=
| BrowserProvider (raw : RawProvider).

Definition Signer := nat.

Inductive Level : Type :=
| LogError
| LogWarn
| LogInfo.

Record State : Type := {
  (** the variables of l.12-16 *)
  modal : option Modal;
  provider : option Provider;
  signer : option Signer;
  walletAddress : option jsstring;
  saving : bool;
  (** [document.querySelector(selectors.connectButton)] and
      [document.querySelector(selectors.addressTarget)] *)
  button : option Element;
  addressTarget : option Element;
  (** [window.ethers], [window.ethereum], and the Web3Modal constructor:
      [None] when there is none, [Some None] when it throws *)
  window_ethers : bool;
  window_ethereum : option Ethereum;
  window_Web3Modal : option (option Modal);
  (** whether [handleAccountsChanged] listens to [accountsChanged] *)
  accountsChanged_listener : bool;
  (** the calls of [console.error], [console.warn], [console.info] *)
  console : list (Level * string)
}.

Definition set_modal (v : option Modal) (s : State) : State :=
  {| modal := v; provider := provider s; signer := signer s;
     walletAddress := walletAddress s; saving := saving s;
     button := button s; addressTarget := addressTarget s;
     window_ethers := window_ethers s; window_ethereum := window_ethereum s;
     window_Web3Modal := window_Web3Modal s;
     accountsChanged_listener := accountsChanged_listener s;
     console := console s |}.

Definition set_provider (v : option Provider) (s : State) : State :=
  {| modal := modal s; provider := v; signer := signer s;
     walletAddress := walletAddress s; saving := saving s;
     button := button s; addressTarget := addressTarget s;
     window_ethers := window_ethers s; window_ethereum := window_ethereum s;
     window_Web3Modal := window_Web3Modal s;
     accountsChanged_listener := accountsChanged_listener s;
     console := console s |}.

Definition set_signer (v : option Signer) (s : State) : State :=
  {| modal := modal s; provider := provider s; signer := v;
     walletAddress := walletAddress s; saving := saving s;
     button := button s; addressTarget := addressTarget s;
     window_ethers := window_ethers s; window_ethereum := window_ethereum s;
     window_Web3Modal := window_Web3Modal s;
     accountsChanged_listener := accountsChanged_listener s;
     console := console s |}.

Definition set_walletAddress (v : option jsstring) (s : State) : State :=
  {| modal := modal s; provider := provider s; signer := signer s;
     walletAddress := v; saving := saving s;
     button := button s; addressTarget := addressTarget s;
     window_ethers := window_ethers s; window_ethereum := window_ethereum s;
     window_Web3Modal := window_Web3Modal s;
     accountsChanged_listener := accountsChanged_listener s;
     console := console s |}.

Definition set_saving (v : bool) (s : State) : State :=
  {| modal := modal s; provider := provider s; signer := signer s;
     walletAddress := walletAddress s; saving := v;
     button := button s; addressTarget := addressTarget s;
     window_ethers := window_ethers s; window_ethereum := window_ethereum s;
     window_Web3Modal := window_Web3Modal s;
     accountsChanged_listener := accountsChanged_listener s;
     console := console s |}.

Definition set_button (v : option Element) (s : State) : State :=
  {| modal := modal s; provider := provider s; signer := signer s;
     walletAddress := walletAddress s; saving := saving s;
     button := v; addressTarget := addressTarget s;
     window_ethers := window_ethers s; window_ethereum := window_ethereum s;
     window_Web3Modal := window_Web3Modal s;
     accountsChanged_listener := accountsChanged_listener s;
     console := console s |}.

Definition set_addressTarget (v : option Element) (s : State) : State :=
  {| modal := modal s; provider := provider s; signer := signer s;
     walletAddress := walletAddress s; saving := saving s;
     button := button s; addressTarget := v;
     window_ethers := window_ethers s; window_ethereum := window_ethereum s;
     window_Web3Modal := window_Web3Modal s;
     accountsChanged_listener := accountsChanged_listener s;
     console := console s |}.

Definition set_accountsChanged_listener (v : bool) (s : State) : State :=
  {| modal := modal s; provider := provider s; signer := signer s;
     walletAddress := walletAddress s; saving := saving s;
     button := button s; addressTarget := addressTarget s;
     window_ethers := window_ethers s; window_ethereum := window_ethereum s;
     window_Web3Modal := window_Web3Modal s;
     accountsChanged_listener := v;
     console := console s |}.

(** [console.error], [console.warn], [console.info]: the level and the
    message; the error object logged with it is left out. *)
Definition log (l : Level) (msg : string) (s : State) : State :=
  {| modal := modal s; provider := provider s; signer := signer s;
     walletAddress := walletAddress s; saving := saving s;
     button := button s; addressTarget := addressTarget s;
     window_ethers := window_ethers s; window_ethereum := window_ethereum s;
     window_Web3Modal := window_Web3Modal s;
     accountsChanged_listener := accountsChanged_listener s;
     console := console s ++ [(l, msg)] |}.

(** *** Element operations *)

Definition set_textContent (t : jsstring) (e : Element) : Element :=
  {| textContent := t; classList := classList e;
     click_listeners := click_listeners e;
     data_connectedAddress := data_connectedAddress e;
     data_state := data_state e; data_projectId := data_projectId e |}.

(** [classList.add]: a class that is there is not added again. *)
Definition classList_add (c : string) (e : Element) : Element :=
  {| textContent := textContent e;
     classList := if existsb (String.eqb c) (classList e) then classList e
                  else classList e ++ [c];
     click_listeners := click_listeners e;
     data_connectedAddress := data_connectedAddress e;
     data_state := data_state e; data_projectId := data_projectId e |}.

Definition classList_remove (c : string) (e : Element) : Element :=
  {| textContent := textContent e;
     classList := filter (fun c' => negb (String.eqb c c')) (classList e);
     click_listeners := click_listeners e;
     data_connectedAddress := data_connectedAddress e;
     data_state := data_state e; data_projectId := data_projectId e |}.

(** [addEventListener('click', h)]: a listener that is registered is not
    registered again. *)
Definition addEventListener (h : Handler) (e : Element) : Element :=
  {| textContent := textContent e; classList := classList e;
     click_listeners := if existsb (handler_eqb h) (click_listeners e)
                        then click_listeners e
                        else click_listeners e ++ [h];
     data_connectedAddress := data_connectedAddress e;
     data_state := data_state e; data_projectId := data_projectId e |}.

Definition removeEventListener (h : Handler) (e : Element) : Element :=
  {| textContent := textContent e; classList := classList e;
     click_listeners := filter (fun h' => negb (handler_eqb h h')) (click_listeners e);
     data_connectedAddress := data_connectedAddress e;
     data_state := data_state e; data_projectId := data_projectId e |}.

Definition set_data_connectedAddress (v : option jsstring) (e : Element) : Element :=
  {| textContent := textContent e; classList := classList e;
     click_listeners := click_listeners e;
     data_connectedAddress := v;
     data_state := data_state e; data_projectId := data_projectId e |}.

Definition set_data_state (v : option jsstring) (e : Element) : Element :=
  {| textContent := textContent e; classList := classList e;
     click_listeners := click_listeners e;
     data_connectedAddress := data_connectedAddress e;
     data_state := v; data_projectId := data_projectId e |}.

(** *** Rendering *)

(** The text between the two slices of [shortAddress] (l.191). The source
    file holds the bytes C3 A2, E2 82 AC, C2 A6 there: read as UTF-8 they
    are the three characters U+00E2, U+20AC, U+00A6. *)
Definition short_separator : jsstring := [226%N; 8364%N; 166%N].

(** [shortAddress] (l.189-192) *)
Definition shortAddress (address : option jsstring) : jsstring :=
  match address with
  | None => []
  | Some a =>
      if negb (truthy address) || (length a <? 10)
      then (if truthy address then a else [])
      else slice a 0 (Some 6%Z) ++ short_separator ++ slice a (-4) None
  end.

(** [renderConnectedState] (l.134-148) *)
Definition renderConnectedState (s : State) : State :=
  match button s, addressTarget s with
  | Some b, Some a =>
      let b := set_textContent (lit "Disconnect") b in
      let b := classList_add "ui-button--secondary" b in
      let b := classList_remove "ui-button--primary" b in
      let b := removeEventListener HandleConnectClick b in
      let b := addEventListener HandleDisconnectClick b in
      let b := set_data_connectedAddress (Some (to_string (walletAddress s))) b in
      let a := set_textContent (shortAddress (walletAddress s)) a in
      let a := set_data_state (Some (lit "connected")) a in
      set_addressTarget (Some a) (set_button (Some b) s)
  | _, _ => s
  end.

(** [renderDisconnectedState] (l.150-164); the default of [label] is
    [default_label]. *)
Definition default_label : jsstring := lit "Connect wallet".

Definition renderDisconnectedState (label : jsstring) (s : State) : State :=
  match button s, addressTarget s with
  | Some b, Some a =>
      let b := set_textContent label b in
      let b := classList_add "ui-button--primary" b in
      let b := classList_remove "ui-button--secondary" b in
      let b := removeEventListener HandleDisconnectClick b in
      let b := addEventListener HandleConnectClick b in
      let b := set_data_connectedAddress None b in
      let a := set_textContent (lit "Not connected") a in
      let a := set_data_state (Some (lit "disconnected")) a in
      set_addressTarget (Some a) (set_button (Some b) s)
  | _, _ => s
  end.

(** [createModal] (l.167-187): the modal, and the console after the call. *)
Definition createModal (projectId : option jsstring) (s : State) : option Modal * State :=
  if negb (truthy projectId) then
    (None, log LogInfo "WALLETCONNECT_PROJECT_ID not set; falling back to injected provider." s)
  else
    match window_Web3Modal s with
    | Some (Some m) => (Some m, s)
    | Some None => (None, log LogWarn "Failed to instantiate Web3Modal" s)
    | None => (None, s)
    end.

(** *** Asynchronous functions

    An [async] function runs until its first [await] and is resumed, with
    the value or the error its promise settled with, in whatever state the
    handlers that ran in between have left. *)

Inductive Err : Type :=
| Error (msg : string)
| TypeError
| Rejection (reason : nat).

Inductive Outcome (X : Type) : Type :=
| Resolved (x : X)
| Rejected (e : Err).
Arguments Rejected {X} e.

(** The calls of [fetch]; each is to ['/authz/session']. The body of the
    POST is [JSON.stringify({ address })]. *)
Inductive FetchCall : Type :=
| GetSession
| PostSession (address : option jsstring)
| DeleteSession.

(** A response: [fetch] resolves with one whatever its status. *)
Record Response : Type := {
  http_ok : bool
}.

(** The body of the session endpoint, [{ ok, data?: { address } }]; a body
    that is [null] is [None]. *)
Record SessionData : Type := {
  address : option jsstring
}.

Record SessionBody : Type := {
  ok : bool;
  data : option SessionData
}.

(** What the script awaits, by the type of what it is resumed with.
    [Tick] is the turn of the microtask queue that an [await] of a value
    already settled takes. *)
Inductive Req : Type -> Type :=
| Fetch (c : FetchCall) : Req Response
| ResponseJson (r : Response) : Req (option SessionBody)
| OpenModal : Req unit
| GetWalletProvider : Req (option RawProvider)
| RequestAccounts : Req unit
| GetSigner (p : Provider) : Req Signer
| GetAddress (sg : Signer) : Req jsstring
| Tick : Req unit.

(** A function of the script from where it stands: returned, thrown, or
    suspended at an [await] with the rest of its body. *)
Inductive Res (A : Type) : Type :=
| Returned (s : State) (a : A)
| Thrown (s : State) (e : Err)
| Suspended (X : Type) (s : State) (r : Req X) (k : Outcome X -> State -> Res A).
Arguments Returned {A} s a.
Arguments Thrown {A} s e.
Arguments Suspended {A X} s r k.

Definition Async (A : Type) : Type := State -> Res A.

Definition ret {A : Type} (a : A) : Async A := fun s => Returned s a.

Definition throw {A : Type} (e : Err) : Async A := fun s => Thrown s e.

Fixpoint bind_res {A B : Type} (r : Res A) (f : A -> Async B) : Res B :=
  match r with
  | Returned s a => f a s
  | Thrown s e => Thrown s e
  | Suspended s q k => Suspended s q (fun o s' => bind_res (k o s') f)
  end.

Definition bind {A B : Type} (m : Async A) (f : A -> Async B) : Async B :=
  fun s => bind_res (m s) f.

(** [try { m } catch (e) { h e }] *)
Fixpoint catch_res {A : Type} (r : Res A) (h : Err -> Async A) : Res A :=
  match r with
  | Returned s a => Returned s a
  | Thrown s e => h e s
  | Suspended s q k => Suspended s q (fun o s' => catch_res (k o s') h)
  end.

Definition try_catch {A : Type} (m : Async A) (h : Err -> Async A) : Async A :=
  fun s => catch_res (m s) h.

(** [try { m } finally { f }], for an [f] that neither throws nor awaits *)
Fixpoint finally_res {A : Type} (r : Res A) (f : State -> State) : Res A :=
  match r with
  | Returned s a => Returned (f s) a
  | Thrown s e => Thrown (f s) e
  | Suspended s q k => Suspended s q (fun o s' => finally_res (k o s') f)
  end.

Definition try_finally {A : Type} (m : Async A) (f : State -> State) : Async A :=
  fun s => finally_res (m s) f.

(** [await] of a promise of the platform *)
Definition await {X : Type} (r : Req X) : Async X :=
  fun s => Suspended s r (fun o s' =>
    match o with
    | Resolved x => Returned s' x
    | Rejected e => Thrown s' e
    end).

(** [await] of the promise of an [async] function of the script: the
    caller goes on one turn of the microtask queue after the callee has
    returned or thrown. *)
Fixpoint settle {A : Type} (r : Res A) : Res A :=
  match r with
  | Returned s a => Suspended s Tick (fun _ s' => Returned s' a)
  | Thrown s e => Suspended s Tick (fun _ s' => Thrown s' e)
  | Suspended s q k => Suspended s q (fun o s' => settle (k o s'))
  end.

Definition await_call {A : Type} (m : Async A) : Async A :=
  fun s => settle (m s).

(** [await] of a value that is no promise, [undefined] here: one turn of
    the microtask queue. *)
Definition tick : Async unit :=
  fun s => Suspended s Tick (fun _ s' => Returned s' tt).

Definition get : Async State := fun s => Returned s s.

Definition modify (f : State -> State) : Async unit := fun s => Returned (f s) tt.

Declare Scope async_scope.
Delimit Scope async_scope with async.
Bind Scope async_scope with Async.

Notation "x <- m ;; k" := (bind m (fun x => k))
  (at level 100, m at next level, right associativity) : async_scope.
Notation "m ;; k" := (bind m (fun _ => k))
  (at level 100, right associativity) : async_scope.

Local Open Scope async_scope.

(** *** The functions of [api] *)

(** [persistWallet] (l.108-122) *)
Definition persistWallet (address : option jsstring) : Async unit :=
  s <- get ;;
  if saving s then ret tt
  else
    modify (set_saving true) ;;
    try_finally
      (try_catch
         (_ <- await (Fetch (PostSession address)) ;; ret tt)
         (fun _ => modify (log LogError "Unable to persist wallet session")))
      (set_saving false).

(** [clearWallet] (l.124-132) *)
Definition clearWallet : Async unit :=
  try_catch
    (_ <- await (Fetch DeleteSession) ;; ret tt)
    (fun _ => modify (log LogError "Unable to clear wallet session")).

(** [hydrateFromServer] (l.39-54); its argument is the button of the
    page, and [button.dataset] throws when there is none. *)
Definition hydrateFromServer : Async unit :=
  try_catch
    (response <- await (Fetch GetSession) ;;
     body <- await (ResponseJson response) ;;
     match body with
     | Some {| ok := true; data := Some {| address := Some (c :: a) |} |} =>
         modify (set_walletAddress (Some (c :: a))) ;;
         modify renderConnectedState ;;
         s <- get ;;
         match button s with
         | Some b =>
             modify (set_button
                       (Some (set_data_connectedAddress
                                (Some (to_string (walletAddress s))) b)))
         | None => throw TypeError
         end
     | _ => modify (renderDisconnectedState default_label)
     end)
    (fun _ =>
       modify (log LogWarn "Unable to hydrate wallet session") ;;
       modify (renderDisconnectedState default_label)).

(** [new window.ethers.BrowserProvider(raw)] (l.64, l.74): reading
    [BrowserProvider] of [window.ethers] throws a [TypeError] on a page
    without the library. *)
Definition new_BrowserProvider (raw : RawProvider) : Async Provider :=
  s <- get ;;
  if window_ethers s then ret (BrowserProvider raw) else throw TypeError.

(** [handleConnectClick] (l.56-86) *)
Definition handleConnectClick : Async unit :=
  try_catch
    (s <- get ;;
     match modal s with
     | Some m =>
         if has_openModal m then
           await OpenModal ;;
           modalProvider <- (if has_getWalletProvider m
                             then await GetWalletProvider
                             else (tick ;; ret None)) ;;
           match modalProvider with
           | Some raw =>
               p <- new_BrowserProvider raw ;;
               modify (set_provider (Some p))
           | None => ret tt
           end
         else ret tt
     | None => ret tt
     end ;;
     s <- get ;;
     match provider s with
     | Some _ => ret tt
     | None =>
         match window_ethereum s with
         | None => throw (Error "No Ethereum provider detected.")
         | Some injectedProvider =>
             (if has_request injectedProvider
              then await RequestAccounts
              else tick) ;;
             p <- new_BrowserProvider InjectedProvider ;;
             modify (set_provider (Some p))
         end
     end ;;
     s <- get ;;
     match provider s with
     | None => throw TypeError
     | Some p =>
         sg <- await (GetSigner p) ;;
         modify (set_signer (Some sg)) ;;
         a <- await (GetAddress sg) ;;
         modify (set_walletAddress (Some a)) ;;
         await_call (persistWallet (Some a)) ;;
         modify renderConnectedState
     end)
    (fun _ =>
       modify (log LogError "Wallet connect failed") ;;
       modify (renderDisconnectedState (lit "Connect wallet"))).

(** [handleDisconnectClick] (l.88-95) *)
Definition handleDisconnectClick : Async unit :=
  modify (set_walletAddress None) ;;
  modify (set_provider None) ;;
  modify (set_signer None) ;;
  await_call clearWallet ;;
  modify (renderDisconnectedState default_label).

(** [handleAccountsChanged] (l.97-106); [accounts] is [None] when the
    wallet reports a falsy value. *)
Definition handleAccountsChanged (accounts : option (list jsstring)) : Async unit :=
  match accounts with
  | None | Some [] => await_call handleDisconnectClick
  | Some (first :: _) =>
      modify (set_walletAddress (Some first)) ;;
      await_call (persistWallet (Some first)) ;;
      modify renderConnectedState
  end.

(** [init] (l.19-37) *)
Definition init : Async unit :=
  s <- get ;;
  if negb (window_ethers s) then
    modify (log LogError "Ethers library missing; wallet connect disabled.")
  else
    match button s with
    | None => ret tt
    | Some b =>
        modify (fun s => set_modal (fst (createModal (data_projectId b) s))
                           (snd (createModal (data_projectId b) s))) ;;
        modify (set_button (Some (addEventListener HandleConnectClick b))) ;;
        await_call hydrateFromServer ;;
        s <- get ;;
        match window_ethereum s with
        | Some eth =>
            if has_on eth then modify (set_accountsChanged_listener true)
            else ret tt
        | None => ret tt
        end
    end.

(** *** Running a function on its own

    The environment settles the awaits of one call in turn, and no other
    handler runs in between. *)

(** What the [n]-th await of a run settles with. *)
Definition Env : Type := nat -> forall X : Type, Req X -> Outcome X.

(** An await of a run: the state at the suspension, what was awaited and
    what it settled with. *)
Inductive Step : Type :=
| Settled (X : Type) (at_state : State) (r : Req X) (o : Outcome X).
Arguments Settled {X} at_state r o.

Inductive Completion (A : Type) : Type :=
| Fulfilled (a : A)
| Failed (e : Err).
Arguments Failed {A} e.

Record Finished (A : Type) : Type := {
  final : State;
  completion : Completion A;
  history : list Step
}.

(** A finished run, with one more await before it. *)
Definition after_step {A : Type} (st : Step) (f : Finished A) : Finished A :=
  {| final := final f; completion := completion f;
     history := st :: history f |}.

Fixpoint run_from {A : Type} (env : Env) (n : nat) (r : Res A) : Finished A :=
  match r with
  | Returned s a => {| final := s; completion := Fulfilled a; history := [] |}
  | Thrown s e => {| final := s; completion := Failed e; history := [] |}
  | Suspended s q k =>
      after_step (Settled s q (env n _ q)) (run_from env (S n) (k (env n _ q) s))
  end.

Definition run {A : Type} (env : Env) (m : Async A) (s : State) : Finished A :=
  run_from env 0 (m s).

(** *** Running a function among others

    While an await of a call is pending the other handlers of the page
    run, any number of them and in any order: [others n s] is the state
    they leave behind when the call was suspended at its [n]-th await in
    [s], and the call goes on in that state. *)
Definition Others : Type := nat -> State -> State.

Fixpoint run_among_from {A : Type} (env : Env) (others : Others) (n : nat)
    (r : Res A) : Finished A :=
  match r with
  | Returned s a => {| final := s; completion := Fulfilled a; history := [] |}
  | Thrown s e => {| final := s; completion := Failed e; history := [] |}
  | Suspended s q k =>
      after_step (Settled s q (env n _ q))
        (run_among_from env others (S n) (k (env n _ q) (others n s)))
  end.

Definition run_among {A : Type} (env : Env) (others : Others) (m : Async A)
    (s : State) : Finished A :=
  run_among_from env others 0 (m s).

(** The stretches a run made between its start and its awaits: for each
    await, the state the call went on from and the state it was suspended
    in. *)
Fixpoint stretches_from (others : Others) (n : nat) (resumed : State)
    (h : list Step) : list (State * State) :=
  match h with
  | [] => []
  | Settled s _ _ :: rest =>
      (resumed, s) :: stretches_from others (S n) (others n s) rest
  end.

Definition stretches (others : Others) (s : State) (h : list Step)
    : list (State * State) :=
  stretches_from others 0 s h.

(** A stretch that left the button and the address label as they were. *)
Definition page_untouched (stretch : State * State) : Prop :=
  button (snd stretch) = button (fst stretch)
  /\ addressTarget (snd stretch) = addressTarget (fst stretch).

(** The state a run was suspended in at its last await. *)
Fixpoint last_suspension (h : list Step) : option State :=
  match h with
  | [] => None
  | Settled s _ _ :: rest =>
      match rest with
      | [] => Some s
      | _ :: _ => last_suspension rest
      end
  end.

(** The addresses the wallet gave: what the awaits of
    [signer.getAddress()] resolved with. *)
Fixpoint wallet_addresses (h : list Step) : list jsstring :=
  match h with
  | [] => []
  | Settled _ r o :: rest =>
      match r in Req X return Outcome X -> list jsstring with
      | GetAddress _ => fun o =>
          match o with
          | Resolved a => a :: wallet_addresses rest
          | Rejected _ => wallet_addresses rest
          end
      | _ => fun _ => wallet_addresses rest
      end o
  end.

(** Whether the DELETE of a disconnect, its first await, is rejected. *)
Definition delete_rejected (env : Env) : bool :=
  match env 0 _ (Fetch DeleteSession) with
  | Resolved _ => false
  | Rejected _ => true
  end.

Definition is_post {X : Type} (r : Req X) : bool :=
  match r with
  | Fetch (PostSession _) => true
  | _ => false
  end.

(** The POST requests of a run to the session endpoint, each with the
    address it carried and what it settled with. *)
Fixpoint posts (h : list Step) : list (option jsstring * Outcome Response) :=
  match h with
  | [] => []
  | Settled _ r o :: rest =>
      match r in Req X return Outcome X -> list (option jsstring * Outcome Response) with
      | Fetch (PostSession a) => fun o => (a, o) :: posts rest
      | _ => fun _ => posts rest
      end o
  end.

(** A POST that resolved with a response whose status is a success. *)
Definition succeeded (o : Outcome Response) : bool :=
  match o with
  | Resolved resp => http_ok resp
  | Rejected _ => false
  end.

(** Whether the page shows the connected state: the button reads
    "Disconnect" and the address label is marked connected. *)
Definition shows_connected (s : State) : bool :=
  match button s, addressTarget s with
  | Some b, Some a =>
      jsstring_eqb (textContent b) (lit "Disconnect")
      && match data_state a with
         | Some st => jsstring_eqb st (lit "connected")
         | None => false
         end
  | _, _ => false
  end.

(** *** The event loop

    The calls in progress, each suspended at an await, and the state they
    share. A step either starts a call of [api] or settles one await. *)

Record Pending : Type := {
  awaited_type : Type;
  awaited : Req awaited_type;
  resume : Outcome awaited_type -> State -> Res unit
}.

Record System : Type := {
  state : State;
  pending : list Pending
}.

(** A call that returned or threw leaves its state; one that suspended
    joins the calls in progress. *)
Definition absorb (r : Res unit) (others : list Pending) : System :=
  match r with
  | Returned s _ => {| state := s; pending := others |}
  | Thrown s _ => {| state := s; pending := others |}
  | Suspended s q k =>
      {| state := s;
         pending := others ++ [{| awaited := q; resume := k |}] |}
  end.

(** The functions of [api], with their arguments. *)
Inductive ApiCall : Type :=
| CallInit
| CallHydrateFromServer
| CallHandleConnectClick
| CallHandleDisconnectClick
| CallHandleAccountsChanged (accounts : option (list jsstring))
| CallPersistWallet (address : option jsstring)
| CallClearWallet
| CallRenderConnectedState
| CallRenderDisconnectedState (label : jsstring).

Definition invoke (c : ApiCall) : Async unit :=
  match c with
  | CallInit => init
  | CallHydrateFromServer => hydrateFromServer
  | CallHandleConnectClick => handleConnectClick
  | CallHandleDisconnectClick => handleDisconnectClick
  | CallHandleAccountsChanged accounts => handleAccountsChanged accounts
  | CallPersistWallet a => persistWallet a
  | CallClearWallet => clearWallet
  | CallRenderConnectedState => modify renderConnectedState
  | CallRenderDisconnectedState label => modify (renderDisconnectedState label)
  end.

Inductive step : System -> System -> Prop :=
| step_call (c : ApiCall) (sys : System) :
    step sys (absorb (invoke c (state sys)) (pending sys))
| step_settle (sys : System) (before after : list Pending) (p : Pending)
    (o : Outcome (awaited_type p)) :
    pending sys = before ++ p :: after ->
    step sys (absorb (resume p o (state sys)) (before ++ after)).

(** The module as it is loaded: nothing in progress, [saving] false. *)
Definition loaded (sys : System) : Prop :=
  pending sys = [] /\ saving (state sys) = false.

Inductive reachable : System -> Prop :=
| reachable_loaded (sys : System) : loaded sys -> reachable sys
| reachable_step (sys sys' : System) :
    reachable sys -> step sys sys' -> reachable sys'.

(** The step that starts a call, and the step that settles the await of
    the [i]-th call in progress with what [answer] says. *)
Definition start (c : ApiCall) (sys : System) : System :=
  absorb (invoke c (state sys)) (pending sys).

Definition settle_nth (i : nat) (answer : forall X : Type, Req X -> Outcome X)
    (sys : System) : System :=
  match nth_error (pending sys) i with
  | Some p =>
      absorb (resume p (answer _ (awaited p)) (state sys))
        (firstn i (pending sys) ++ skipn (S i) (pending sys))
  | None => sys
  end.

(** The POST requests to the session endpoint that are in flight. *)
Definition in_flight_posts (sys : System) : nat :=
  length (filter (fun p => is_post (awaited p)) (pending sys)).

(** How a suspended call treats the [saving] flag from where it stands.
    [own] says that the call holds the flag, [flag] is the flag at the
    start of the stretch that ran. A call that holds it awaits its POST
    and clears the flag when resumed; any other call leaves the flag as
    it found it, or takes it when it is free and issues the POST. *)
Fixpoint guarded {A : Type} (own flag : bool) (r : Res A) : Prop :=
  match r with
  | Returned s _ => saving s = (if own then false else flag)
  | Thrown s _ => saving s = (if own then false else flag)
  | Suspended s q k =>
      if is_post q then
        own = false /\ flag = false /\ saving s = true
        /\ forall o s', guarded true (saving s') (k o s')
      else
        saving s = (if own then false else flag)
        /\ forall o s', guarded false (saving s') (k o s')
  end.

(** A call in progress goes on as [guarded] asks, whatever its await
    settles with and whatever state it is resumed in. *)
Definition well_guarded (p : Pending) : Prop :=
  forall (o : Outcome (awaited_type p)) (s' : State),
    guarded (is_post (awaited p)) (saving s') (resume p o s').

Definition count_posts (l : list Pending) : nat :=
  length (filter (fun p => is_post (awaited p)) l).

(** The invariant of the event loop: the flag is set exactly while one
    POST is in flight, and every call in progress is [well_guarded]. *)
Definition single_flight (sys : System) : Prop :=
  in_flight_posts sys = (if saving (state sys) then 1 else 0)
  /\ Forall well_guarded (pending sys).

(** A call that never ends by throwing, whatever its awaits settle with
    and whatever state it is resumed in: its promise is never rejected. *)
Fixpoint never_rejects {A : Type} (r : Res A) : Prop :=
  match r with
  | Returned _ _ => True
  | Thrown _ _ => False
  | Suspended _ _ k => forall o s', never_rejects (k o s')
  end.

(** The calls of [fetch] of a run, in order. *)
Fixpoint fetches (h : list Step) : list FetchCall :=
  match h with
  | [] => []
  | Settled _ r _ :: rest =>
      match r with
      | Fetch c => c :: fetches rest
      | _ => fetches rest
      end
  end.

(** The address a session body carries, as l.43 reads it:
    [body?.ok && body.data?.address]. *)
Definition session_address (body : option SessionBody) : option jsstring :=
  match body with
  | Some {| ok := true; data := Some {| address := Some (c :: a) |} |} =>
      Some (c :: a)
  | _ => None
  end.

(** What a hydration learns from the server: the GET is the first await
    of the run and the reading of its body the second. *)
Definition hydrated (env : Env) : option jsstring :=
  match env 0 _ (Fetch GetSession) with
  | Resolved response =>
      match env 1 _ (ResponseJson response) with
      | Resolved body => session_address body
      | Rejected _ => None
      end
  | Rejected _ => None
  end.

(** Whether a click handler is among the click listeners of an element. *)
Definition bound (h : Handler) (e : Element) : bool :=
  existsb (handler_eqb h) (click_listeners e).

End Wallet.

(** ** Sample pages *)

Module Samples.
Import JS.

(** A drawer that is closed, with one toggle button (node 0) that has the
    focus and two links (nodes 1 and 2) inside. *)
Definition drawer_closed : NavDrawer.State :=
  {| NavDrawer.hidden := true;
     NavDrawer.is_nav_open := false;
     NavDrawer.aria_expanded := [Some false];
     NavDrawer.lastActiveElement := None;
     NavDrawer.activeElement := Some 0;
     NavDrawer.keydown_listener := false;
     NavDrawer.click_listener := false;
     NavDrawer.matching := fun _ =>
       [ {| NavDrawer.node := 1; NavDrawer.offsetParent_null := false |};
         {| NavDrawer.node := 2; NavDrawer.offsetParent_null := false |} ];
     NavDrawer.takes_focus := fun _ => true |}.

(** The same drawer when nothing has the focus: [document.activeElement]
    is the body (node 9), which does not take the focus. *)
Definition drawer_closed_at_body : NavDrawer.State :=
  {| NavDrawer.hidden := true;
     NavDrawer.is_nav_open := false;
     NavDrawer.aria_expanded := [Some false];
     NavDrawer.lastActiveElement := None;
     NavDrawer.activeElement := Some 9;
     NavDrawer.keydown_listener := false;
     NavDrawer.click_listener := false;
     NavDrawer.matching := fun _ =>
       [ {| NavDrawer.node := 1; NavDrawer.offsetParent_null := false |};
         {| NavDrawer.node := 2; NavDrawer.offsetParent_null := false |} ];
     NavDrawer.takes_focus := fun e => negb (Nat.eqb e 9) |}.

(** The button and the address label as the page is served. *)
Definition connect_button : Wallet.Element :=
  {| Wallet.textContent := lit "Connect wallet";
     Wallet.classList := ["ui-button"; "ui-button--primary"]%string;
     Wallet.click_listeners := [];
     Wallet.data_connectedAddress := None;
     Wallet.data_state := None;
     Wallet.data_projectId := None |}.

Definition address_label : Wallet.Element :=
  {| Wallet.textContent := lit "Not connected";
     Wallet.classList := [];
     Wallet.click_listeners := [];
     Wallet.data_connectedAddress := None;
     Wallet.data_state := Some (lit "disconnected");
     Wallet.data_projectId := None |}.

(** The wallet module as it is loaded on a page with an injected wallet
    and no project identifier. *)
Definition wallet_loaded : Wallet.State :=
  {| Wallet.modal := None; Wallet.provider := None; Wallet.signer := None;
     Wallet.walletAddress := None; Wallet.saving := false;
     Wallet.button := Some connect_button;
     Wallet.addressTarget := Some address_label;
     Wallet.window_ethers := true;
     Wallet.window_ethereum :=
       Some {| Wallet.has_request := true; Wallet.has_on := true |};
     Wallet.window_Web3Modal := None;
     Wallet.accountsChanged_listener := false;
     Wallet.console := [] |}.

Definition sample_address : jsstring := lit "0xABCDEF1234567890".

(** An environment in which every await resolves: the session endpoint
    answers [body] to a GET, the wallet hands out signer 7 and
    [sample_address]. *)
Definition env_ok (body : option Wallet.SessionBody) : Wallet.Env :=
  fun _ X r =>
    match r in Wallet.Req X return Wallet.Outcome X with
    | Wallet.Fetch _ => Wallet.Resolved {| Wallet.http_ok := true |}
    | Wallet.ResponseJson _ => Wallet.Resolved body
    | Wallet.OpenModal => Wallet.Resolved tt
    | Wallet.GetWalletProvider => Wallet.Resolved None
    | Wallet.RequestAccounts => Wallet.Resolved tt
    | Wallet.GetSigner _ => Wallet.Resolved 7
    | Wallet.GetAddress _ => Wallet.Resolved sample_address
    | Wallet.Tick => Wallet.Resolved tt
    end.

(** The same, with every [fetch] rejected: the network is down. *)
Definition env_offline : Wallet.Env :=
  fun _ X r =>
    match r in Wallet.Req X return Wallet.Outcome X with
    | Wallet.Fetch _ => Wallet.Rejected (Wallet.Rejection 0)
    | Wallet.ResponseJson _ => Wallet.Rejected (Wallet.Rejection 0)
    | Wallet.OpenModal => Wallet.Resolved tt
    | Wallet.GetWalletProvider => Wallet.Resolved None
    | Wallet.RequestAccounts => Wallet.Resolved tt
    | Wallet.GetSigner _ => Wallet.Resolved 7
    | Wallet.GetAddress _ => Wallet.Resolved sample_address
    | Wallet.Tick => Wallet.Resolved tt
    end.

(** The body [{ok: true, data: {address: "0xABCDEF1234567890"}}]. *)
Definition session_body : Wallet.SessionBody :=
  {| Wallet.ok := true;
     Wallet.data := Some {| Wallet.address := Some sample_address |} |}.

(** The event loop after a call of [persistWallet] on the loaded module:
    the POST is in flight. *)
Definition wallet_persisting : Wallet.System :=
  Wallet.absorb
    (Wallet.invoke (Wallet.CallPersistWallet (Some sample_address)) wallet_loaded)
    [].

(** What happens while the first await of a call is pending, when the
    wallet reports its account then: [handleAccountsChanged] runs up to
    its POST. Nothing happens during the later awaits. *)
Definition account_reported_meanwhile : Wallet.Others :=
  fun n s =>
    match n with
    | O => Wallet.state
             (Wallet.absorb
                (Wallet.handleAccountsChanged (Some [sample_address]) s) [])
    | S _ => s
    end.

(** No other handler runs. *)
Definition nothing_meanwhile : Wallet.Others := fun _ s => s.

(** The event loop after a connect click that the wallet's report of its
    account overtakes: the click is suspended at [eth_requestAccounts],
    [handleAccountsChanged] starts and is suspended at its POST, and the
    four awaits of the click settle while that POST is in flight. *)
Definition connect_overtaken : Wallet.System :=
  let answer := env_ok None 0 in
  Wallet.settle_nth 1 answer
    (Wallet.settle_nth 1 answer
       (Wallet.settle_nth 1 answer
          (Wallet.settle_nth 0 answer
             (Wallet.start
                (Wallet.CallHandleAccountsChanged (Some [sample_address]))
                (Wallet.start Wallet.CallHandleConnectClick
                   {| Wallet.state := wallet_loaded;
                      Wallet.pending := [] |}))))).

(** Numbers as integers, printed in decimal. *)
#[export] Instance integers : Monitor.Numbers :=
  {| Monitor.Num := Z;
     Monitor.num_truthy := fun z => negb (z =? 0)%Z;
     Monitor.num_to_string := fun z => lit (NilZero.string_of_int (Z.to_int z)) |}.

Definition snapshot (run_id market : string) (unrealized : Z) : Monitor.JsVal :=
  Monitor.JObj
    [ (lit "run_id", Monitor.JStr (lit run_id));
      (lit "market", Monitor.JStr (lit market));
      (lit "status", Monitor.JStr (lit "open"));
      (lit "position_notional", Monitor.JNum 1000%Z);
      (lit "entry_price", Monitor.JNum 25%Z);
      (lit "mark_price", Monitor.JNum 26%Z);
      (lit "unrealized_pnl", Monitor.JNum unrealized);
      (lit "realized_pnl", Monitor.JNum 0%Z);
      (lit "timestamp", Monitor.JStr (lit "2025-01-01T00:00:00Z")) ].

Definition envelope (ok : bool) (data : Monitor.JsVal) : Monitor.JsVal :=
  Monitor.JObj [ (lit "ok", Monitor.JBool ok); (lit "data", data) ].

(** Whether [l] starts with [p]. *)
Fixpoint starts_with (p l : jsstring) : bool :=
  match p, l with
  | [], _ => true
  | c :: p', d :: l' => N.eqb c d && starts_with p' l'
  | _ :: _, [] => false
  end.

Fixpoint take_until (stop : N) (l : jsstring) : jsstring :=
  match l with
  | [] => []
  | c :: rest => if N.eqb c stop then [] else c :: take_until stop rest
  end.

(** The value of the [class] attribute among the attributes of a tag. *)
Fixpoint class_attr (attrs : jsstring) : list string :=
  match attrs with
  | [] => []
  | _ :: rest =>
      if starts_with (lit "class=" ++ Monitor.quote) attrs
      then [string_of_list_ascii
              (map ascii_of_N (take_until 34 (skipn 7 attrs)))]
      else class_attr rest
  end.

(** Where the scanner of cells stands: between two cells, inside the
    start tag of a cell, or inside a cell. *)
Inductive Scan : Type :=
| Between
| InTag (attrs : jsstring)
| InCell (classes : list string) (html : jsstring).

(** The cells of a markup: each stretch from a [<td ...>] to the next
    [</td>], with its class and what is in between; [skip] characters
    are passed over first. This is what the parser of a browser makes of
    a markup whose cells hold no table markup of their own. *)
Fixpoint scan_cells (st : Scan) (skip : nat) (cs : jsstring) : list Monitor.Td :=
  match cs with
  | [] => []
  | c :: rest =>
      match skip with
      | S k => scan_cells st k rest
      | O =>
          match st with
          | Between =>
              if starts_with (lit "<td") cs then scan_cells (InTag []) 2 rest
              else scan_cells Between 0 rest
          | InTag attrs =>
              if N.eqb c 62 then scan_cells (InCell (class_attr attrs) []) 0 rest
              else scan_cells (InTag (attrs ++ [c])) 0 rest
          | InCell classes html =>
              if starts_with (lit "</td>") cs
              then {| Monitor.td_classes := classes; Monitor.td_html := html |}
                   :: scan_cells Between 4 rest
              else scan_cells (InCell classes (html ++ [c])) 0 rest
          end
      end
  end.

(** A platform that parses three messages, named by their text, and
    prints numbers without grouping. *)
#[export] Instance three_messages : Monitor.Platform :=
  {| Monitor.JSON_parse := fun data =>
       if jsstring_eqb data (lit "first") then
         Some (envelope true (snapshot "7f3a9c0001abcdef" "ETH" 40))
       else if jsstring_eqb data (lit "second") then
         Some (envelope true (snapshot "7f3a9c0001abcdef" "ETH" 55))
       else if jsstring_eqb data (lit "failed") then
         Some (envelope false Monitor.JUndef)
       else None;
     Monitor.formatNum := Monitor.to_str;
     Monitor.pnl_sum := fun a b =>
       match a, b with
       | Monitor.JNum x, Monitor.JNum y => (x + y)%Z
       | _, _ => 0%Z
       end;
     Monitor.parse_cells := scan_cells Between 0 |}.

(** The table as the page is served: the placeholder row only; and the
    stream once [connectSSE] has run. *)
Definition placeholder_row : Monitor.Tr :=
  {| Monitor.tr_id := [];
     Monitor.tr_cells :=
       [ {| Monitor.td_classes := ["cell-empty"%string];
            Monitor.td_html := lit "No active runs" |} ] |}.

Definition monitor_started : Monitor.State :=
  {| Monitor.monitor_rows := Some [placeholder_row];
     Monitor.sources :=
       [ {| Monitor.url := "/monitoring/stream"; Monitor.closed := false |} ];
     Monitor.timers := [];
     Monitor.console := [] |}.

(** The platform of [three_messages], which also parses a message whose
    snapshot has no [run_id]. *)
Definition with_missing_run_id : Monitor.Platform :=
  {| Monitor.JSON_parse := fun data =>
       if jsstring_eqb data (lit "no run id") then
         Some (envelope true
                 (Monitor.JObj [ (lit "market", Monitor.JStr (lit "ETH")) ]))
       else Monitor.JSON_parse data;
     Monitor.formatNum := Monitor.to_str;
     Monitor.pnl_sum := Monitor.pnl_sum;
     Monitor.parse_cells := Monitor.parse_cells |}.


(** The loaded module on a page where the browser has no wallet. *)
Definition page_without_wallet : Wallet.State :=
  {| Wallet.modal := None; Wallet.provider := None; Wallet.signer := None;
     Wallet.walletAddress := None; Wallet.saving := false;
     Wallet.button := Some connect_button;
     Wallet.addressTarget := Some address_label;
     Wallet.window_ethers := true;
     Wallet.window_ethereum := None;
     Wallet.window_Web3Modal := None;
     Wallet.accountsChanged_listener := false;
     Wallet.console := [] |}.

(** The page once a session has been hydrated for [sample_address]. *)
Definition wallet_connected : Wallet.State :=
  Wallet.renderConnectedState
    (Wallet.set_walletAddress (Some sample_address) wallet_loaded).

End Samples.

(** * Properties *)

Unset Implicit Arguments.

Module JSFacts.
Import JS.

Lemma jsstring_eqb_eq (a b : jsstring) : jsstring_eqb a b = true <-> a = b.
Proof.
  unfold jsstring_eqb. destruct (list_eq_dec N.eq_dec a b); split; congruence.
Qed.


Lemma slice_prefix {A : Type} (s : list A) (n : nat) :
  slice s 0 (Some (Z.of_nat n)) = first_chars n s.
Proof.
  unfold slice, first_chars, clamp_index. cbn [Z.ltb Z.compare].
  destruct (Z.of_nat n <? 0)%Z eqn:E; [apply Z.ltb_lt in E; lia|].
  replace (Z.to_nat (Z.min 0 (Z.of_nat (length s)))) with 0%nat by lia.
  cbn [skipn].
  destruct (Nat.le_ge_cases n (length s)) as [H|H].
  - f_equal. lia.
  - rewrite (firstn_all2 (n := n) s) by exact H. apply firstn_all2. lia.
Qed.

Lemma slice_suffix {A : Type} (s : list A) (n : nat) :
  (0 < n)%nat -> slice s (- Z.of_nat n) None = last_chars n s.
Proof.
  intros Hn. unfold slice, last_chars, clamp_index.
  destruct (- Z.of_nat n <? 0)%Z eqn:E; [|apply Z.ltb_ge in E; lia].
  assert (Hfrom : Z.to_nat (Z.max (Z.of_nat (length s) + - Z.of_nat n) 0)
                  = (length s - n)%nat) by lia.
  rewrite Hfrom. apply firstn_all2. rewrite length_skipn. lia.
Qed.

End JSFacts.

Module DrawerProofs.
Import NavDrawer.

Lemma focusableSelector_invalid : selector_valid focusableSelector = false.
Proof. vm_compute. reflexivity. Qed.

Lemma getFocusable_throws (s : State) : getFocusable s = inl SyntaxError.
Proof.
  unfold getFocusable, querySelectorAll.
  now rewrite focusableSelector_invalid.
Qed.

Lemma openDrawer_hidden (s : State) : hidden (fst (openDrawer s)) = false.
Proof.
  unfold openDrawer. destruct (hidden s) eqn:E; cbn [negb].
  - now rewrite getFocusable_throws.
  - exact E.
Qed.

Lemma closeDrawer_hidden (s : State) : hidden (fst (closeDrawer s)) = true.
Proof.
  unfold closeDrawer. destruct (hidden s) eqn:E.
  - exact E.
  - cbn. destruct (lastActiveElement s) as [e|]; [|reflexivity].
    unfold focus. destruct (takes_focus _ e); reflexivity.
Qed.

Lemma call_visible (c : Call) (s : State) : visible (call c s) = implied c.
Proof.
  unfold visible. destruct c; cbn [call implied].
  - now rewrite openDrawer_hidden.
  - now rewrite closeDrawer_hidden.
Qed.

Lemma openDrawer_noop (s : State) :
  hidden s = false -> openDrawer s = (s, Normal).
Proof. intros E. unfold openDrawer. now rewrite E. Qed.

Lemma closeDrawer_noop (s : State) :
  hidden s = true -> closeDrawer s = (s, Normal).
Proof. intros E. unfold closeDrawer. now rewrite E. Qed.

Lemma call_idempotent (c : Call) (s : State) : call c (call c s) = call c s.
Proof.
  destruct c; cbn [call].
  - now rewrite (openDrawer_noop (fst (openDrawer s)) (openDrawer_hidden s)).
  - now rewrite (closeDrawer_noop (fst (closeDrawer s)) (closeDrawer_hidden s)).
Qed.

(** C7. After any finite sequence of [openDrawer] and [closeDrawer] calls
    the drawer is shown exactly when the last call was [openDrawer];
    [openDrawer] changes nothing when the drawer is shown, [closeDrawer]
    changes nothing when it is hidden, and calling either twice in a row
    leaves the state the first call left. *)
Theorem drawer_state_follows_last_call :
  forall (s : State) (cs : list Call) (c : Call),
    visible (calls (cs ++ [c]) s) = implied c
    /\ (visible s = true -> openDrawer s = (s, Normal))
    /\ (visible s = false -> closeDrawer s = (s, Normal))
    /\ call c (call c s) = call c s.
Proof.
  intros s cs c. repeat split.
  - unfold calls. rewrite fold_left_app. cbn [fold_left]. apply call_visible.
  - unfold visible. intros E. apply openDrawer_noop.
    now destruct (hidden s).
  - unfold visible. intros E. apply closeDrawer_noop.
    now destruct (hidden s).
  - apply call_idempotent.
Qed.

Lemma drawer_state_follows_last_call_witness :
  visible (calls ([Open; Close; Close] ++ [Open]) Samples.drawer_closed) = true
  /\ closeDrawer Samples.drawer_closed = (Samples.drawer_closed, Normal).
Proof.
  destruct (drawer_state_follows_last_call Samples.drawer_closed
              [Open; Close; Close] Open) as (Hlast & _ & _ & _).
  destruct (drawer_state_follows_last_call Samples.drawer_closed [] Close)
    as (_ & _ & Hclose & _).
  split; [exact Hlast | apply Hclose; reflexivity].
Defined.

(** The trap itself is sound: whenever l.66-80 move the focus, they move
    it to an element of the list they were given. *)
Lemma cycleFocus_stays_inside (focusable : list Elem) (event : KeyEvent)
    (s : State) :
  activeElement (after (cycleFocus focusable event s)) = activeElement s
  \/ exists e : Elem,
       activeElement (after (cycleFocus focusable event s)) = Some e
       /\ In e focusable.
Proof.
  unfold cycleFocus. destruct focusable as [|first rest]; [now left|].
  assert (Hlast : In (List.last rest first) (first :: rest)).
  { destruct rest as [|x rest']; [now left|]. right.
    assert (Hsplit : x :: rest'
                     = removelast (x :: rest') ++ [List.last (x :: rest') first])
      by (apply app_removelast_last; discriminate).
    assert (Hin : In (List.last (x :: rest') first)
                    (removelast (x :: rest') ++ [List.last (x :: rest') first]))
      by (apply in_or_app; right; now left).
    now rewrite <- Hsplit in Hin. }
  assert (Hfocus : forall e : Elem, In e (first :: rest) ->
            activeElement (focus e s) = activeElement s
            \/ exists e' : Elem,
                 activeElement (focus e s) = Some e' /\ In e' (first :: rest)).
  { intros e Hin. unfold focus. destruct (takes_focus s e); [|now left].
    right. exists e. now split. }
  destruct (negb (shiftKey event) && elem_eqb (activeElement s) _).
  - apply Hfocus. now left.
  - destruct (shiftKey event && elem_eqb (activeElement s) first).
    + apply Hfocus. exact Hlast.
    + now left.
Qed.

(** C6 (defect). [getFocusable] throws on every page: the selector list
    holds [input[type!='hidden']], which the selector grammar refuses. So
    [openDrawer] shows the drawer and stops before it installs the keydown
    listener, and [handleKeydown], were it called on a Tab, stops before
    it prevents the default or moves the focus: the browser's own Tab
    navigation is never held inside the drawer. *)
Theorem focus_trap_never_runs :
  forall (s : State) (shift : bool),
    getFocusable s = inl SyntaxError
    /\ keydown_listener (fst (openDrawer s)) = keydown_listener s
    /\ handleKeydown {| key := Tab; shiftKey := shift |} s
       = {| after := s; defaultPrevented := false;
            completion := Threw SyntaxError |}
    /\ openDrawer Samples.drawer_closed
       = (setAria true
            (set_is_nav_open true
               (set_hidden false
                  (set_lastActiveElement (Some 0) Samples.drawer_closed))),
          Threw SyntaxError)
    /\ defaultPrevented
         (dispatchKeydown {| key := Tab; shiftKey := shift |}
            (fst (openDrawer Samples.drawer_closed))) = false.
Proof.
  intros s shift.
  assert (Hopen : forall s0, hidden s0 = true ->
            openDrawer s0
            = (setAria true
                 (set_is_nav_open true
                    (set_hidden false
                       (set_lastActiveElement (activeElement s0) s0))),
               Threw SyntaxError)).
  { intros s0 E. unfold openDrawer. rewrite E. cbn [negb].
    now rewrite getFocusable_throws. }
  split; [apply getFocusable_throws|].
  split.
  { destruct (hidden s) eqn:E.
    - now rewrite Hopen.
    - now rewrite openDrawer_noop. }
  split.
  { unfold handleKeydown. cbn [key]. now rewrite getFocusable_throws. }
  split.
  { now rewrite Hopen. }
  rewrite Hopen by reflexivity. reflexivity.
Qed.

End DrawerProofs.

Module MonitorProofs.
Import JS Monitor.

Section WithPlatform.

Context {numbers : Numbers} {platform : Platform}.

Implicit Types (rows : list Tr) (row : Tr) (id : jsstring) (s : State).

Lemma count_id_app id rows rows' :
  count_id id (rows ++ rows') = count_id id rows + count_id id rows'.
Proof. unfold count_id. now rewrite filter_app, length_app. Qed.

Lemma getElementById_None id rows :
  getElementById id rows = None <-> count_id id rows = 0.
Proof.
  unfold count_id. induction rows as [|r rest IH]; cbn; [tauto|].
  destruct (jsstring_eqb (tr_id r) id); cbn.
  - split; discriminate.
  - destruct (getElementById id rest); cbn.
    + split; [discriminate|]. intros H. apply IH in H. discriminate.
    + tauto.
Qed.

(** The two DOM calls of l.236-237 remove the first placeholder row. *)
Lemma remove_placeholder rows :
  match querySelector_cell_empty rows with
  | Some i => remove_at i rows
  | None => rows
  end = without_first_placeholder rows.
Proof.
  induction rows as [|r rest IH]; cbn; [reflexivity|].
  destruct (is_placeholder r); [reflexivity|].
  destruct (querySelector_cell_empty rest); cbn in *; now rewrite <- IH.
Qed.

Lemma count_id_without_first_placeholder id rows :
  count_id id rows = 0 -> count_id id (without_first_placeholder rows) = 0.
Proof.
  unfold count_id. induction rows as [|r rest IH]; cbn; [reflexivity|].
  destruct (jsstring_eqb (tr_id r) id) eqn:E; cbn; [discriminate|].
  intros H. destruct (is_placeholder r); cbn; [exact H|].
  rewrite E. now apply IH.
Qed.



Lemma count_id_replaceWith id id0 rows row i :
  getElementById id rows = Some i ->
  tr_id row = id ->
  count_id id0 (replaceWith i row rows) = count_id id0 rows.
Proof.
  unfold count_id. revert i.
  induction rows as [|r rest IH]; intros i Hi Hrow; cbn in Hi.
  - discriminate.
  - destruct (jsstring_eqb (tr_id r) id) eqn:E.
    + injection Hi as <-. apply JSFacts.jsstring_eqb_eq in E.
      cbn. rewrite Hrow, E.
      destruct (jsstring_eqb id id0); reflexivity.
    + destruct (getElementById id rest) as [j|] eqn:Ej; [|discriminate].
      injection Hi as <-. cbn.
      destruct (jsstring_eqb (tr_id r) id0); cbn; now rewrite (IH j).
Qed.

Lemma count_id_without_first_placeholder_le id rows :
  count_id id (without_first_placeholder rows) <= count_id id rows.
Proof.
  unfold count_id. induction rows as [|r rest IH]; cbn; [lia|].
  destruct (is_placeholder r); cbn.
  - destruct (jsstring_eqb (tr_id r) id); cbn; lia.
  - destruct (jsstring_eqb (tr_id r) id); cbn; lia.
Qed.








(** C10. A message that does not parse, or whose envelope has a falsy
    [ok] or a falsy [data], leaves the rows of the table as they are; it
    changes neither the event sources nor the timers. *)
Theorem rejected_message_leaves_table :
  forall (data : jsstring) (s : State),
    (JSON_parse data = None
     \/ exists payload : JsVal,
          JSON_parse data = Some payload
          /\ (truthy (prop payload "ok") = false
              \/ truthy (prop payload "data") = false)) ->
    monitor_rows (onmessage data s) = monitor_rows s
    /\ sources (onmessage data s) = sources s
    /\ timers (onmessage data s) = timers s.
Proof.
  intros data s [Hnone | (payload & Hparse & Hbad)]; unfold onmessage.
  - rewrite Hnone. repeat split.
  - rewrite Hparse.
    assert (Hguard : truthy payload && truthy (prop payload "ok")
                     && truthy (prop payload "data") = false).
    { destruct Hbad as [H | H]; rewrite H.
      - now rewrite andb_false_r.
      - apply andb_false_r. }
    rewrite Hguard. repeat split.
Qed.

Lemma is_open_nth (i : nat) (s : State) :
  is_open i s = true ->
  exists es, nth_error (sources s) i = Some es /\ closed es = false.
Proof.
  unfold is_open. destruct (nth_error (sources s) i) as [es|]; [|discriminate].
  intros H. exists es. split; [reflexivity|]. now destruct (closed es).
Qed.

Lemma length_close_at (i : nat) (l : list Source) :
  length (close_at i l) = length l.
Proof.
  revert i. induction l as [|es rest IH]; intros [|j]; cbn; try reflexivity.
  now rewrite IH.
Qed.

Lemma nth_error_close_at (i : nat) (l : list Source) (es : Source) :
  nth_error l i = Some es ->
  nth_error (close_at i l) i = Some {| url := url es; closed := true |}.
Proof.
  revert i. induction l as [|e rest IH]; intros [|j] H; cbn in *;
    try discriminate.
  - now injection H as ->.
  - now apply IH.
Qed.

Lemma remove_timer_last (l : list Timer) (t : Timer) :
  remove_timer (length l) (l ++ [t]) = l.
Proof. induction l as [|t' rest IH]; cbn; [reflexivity|]. now rewrite IH. Qed.

Lemma nth_error_last {A : Type} (l : list A) (a : A) :
  nth_error (l ++ [a]) (length l) = Some a.
Proof. induction l as [|x rest IH]; cbn; [reflexivity|exact IH]. Qed.

(** An error on an open source, then the timer it set. *)
Lemma error_then_fire (s : State) (i : nat) :
  is_open i s = true ->
  step (Error i) s
  = setTimeout ConnectSSE 1500 (set_sources (close_at i (sources s)) s)
  /\ step (Fire (length (timers s))) (step (Error i) s)
     = set_sources
         (close_at i (sources s)
            ++ [{| url := "/monitoring/stream"; closed := false |}]) s.
Proof.
  intros Hopen.
  assert (Herr : step (Error i) s
                 = setTimeout ConnectSSE 1500
                     (set_sources (close_at i (sources s)) s)).
  { cbn [step]. now rewrite Hopen. }
  split; [exact Herr|]. rewrite Herr.
  unfold step, setTimeout, onerror. cbn [timers set_timers set_sources].
  rewrite nth_error_last, remove_timer_last. cbn.
  unfold connectSSE, set_sources, set_timers. cbn. now destruct s.
Qed.

Lemma is_open_newest (l : list Source) (s : State) :
  is_open (length (l ++ [{| url := "/monitoring/stream"; closed := false |}]) - 1)
    (set_sources (l ++ [{| url := "/monitoring/stream"; closed := false |}]) s)
  = true.
Proof.
  unfold is_open. cbn [sources set_sources].
  rewrite length_app. cbn [length].
  replace (length l + 1 - 1) with (length l) by lia.
  now rewrite nth_error_last.
Qed.

(** Every failure of the newest source is followed by a new open source,
    however many came before. *)
Lemma retries_reconnect (n : nat) (s : State) :
  is_open (length (sources s) - 1) s = true ->
  length (sources (retries n s)) = length (sources s) + n
  /\ is_open (length (sources (retries n s)) - 1) (retries n s) = true
  /\ timers (retries n s) = timers s
  /\ monitor_rows (retries n s) = monitor_rows s.
Proof.
  revert s. induction n as [|k IH]; intros s Hopen; cbn [retries].
  - repeat split; [lia | exact Hopen].
  - destruct (error_then_fire s _ Hopen) as (Herr & Hfire).
    assert (Hretry : retry s
                     = set_sources
                         (close_at (length (sources s) - 1) (sources s)
                            ++ [{| url := "/monitoring/stream"; closed := false |}]) s).
    { unfold retry. rewrite <- Hfire. f_equal. f_equal. rewrite Herr.
      unfold setTimeout. cbn [timers set_timers set_sources].
      rewrite length_app. cbn [length]. lia. }
    destruct (IH (retry s)) as (Hlen & Hlast & Htimers & Hrows).
    { rewrite Hretry. apply is_open_newest. }
    rewrite Hlen, Htimers, Hrows, Hretry. cbn [sources set_sources timers monitor_rows].
    rewrite length_app, length_close_at. cbn [length].
    repeat split; try lia. rewrite <- Hretry. 
    replace (length (sources s) + 1 + k) with (length (sources (retry s)) + k).
    + rewrite <- Hlen. exact Hlast.
    + rewrite Hretry. cbn [sources set_sources].
      rewrite length_app, length_close_at. reflexivity.
Qed.

(** C8. An error on an open stream closes that stream and sets exactly
    one timer, for [connectSSE] after 1500 ms; it opens no stream itself.
    When the timer fires exactly one new stream is opened. The same
    happens on every later failure, whatever their number: the delay stays
    1500 ms and no failure is the last one to be retried. *)
Theorem stream_error_reconnects_after_fixed_delay :
  forall (s : State) (i : nat),
    is_open i s = true ->
    let failed := step (Error i) s in
    let again := step (Fire (length (timers s))) failed in
    is_open i failed = false
    /\ sources failed = close_at i (sources s)
    /\ timers failed = timers s ++ [reconnect_timer]
    /\ delay_ms reconnect_timer = 1500
    /\ monitor_rows failed = monitor_rows s
    /\ sources again
       = close_at i (sources s)
           ++ [{| url := "/monitoring/stream"; closed := false |}]
    /\ timers again = timers s
    /\ forall n : nat,
         let later := retries n again in
         length (sources later) = length (sources again) + n
         /\ is_open (length (sources later) - 1) later = true
         /\ timers later = timers s
         /\ timers (step (Error (length (sources later) - 1)) later)
            = timers s ++ [reconnect_timer].
Proof.
  intros s i Hopen failed again.
  destruct (error_then_fire s i Hopen) as (Herr & Hfire).
  fold failed in Herr, Hfire. fold again in Hfire.
  destruct (is_open_nth i s Hopen) as (es & Hnth & _).
  split.
  { rewrite Herr. unfold is_open, setTimeout.
    cbn [sources set_timers set_sources].
    now rewrite (nth_error_close_at i (sources s) es Hnth). }
  split; [now rewrite Herr|].
  split; [now rewrite Herr|].
  split; [reflexivity|].
  split; [now rewrite Herr|].
  split; [now rewrite Hfire|].
  split; [now rewrite Hfire|].
  intros n later.
  assert (Hnewest : is_open (length (sources again) - 1) again = true).
  { rewrite Hfire. apply is_open_newest. }
  destruct (retries_reconnect n again Hnewest) as (Hlen & Hlast & Htimers & _).
  fold later in Hlen, Hlast, Htimers.
  assert (Hagain : timers again = timers s) by now rewrite Hfire.
  split; [exact Hlen|]. split; [exact Hlast|].
  split; [now rewrite Htimers|].
  destruct (error_then_fire later _ Hlast) as (Herr' & _).
  rewrite Herr'. unfold setTimeout. cbn [timers set_timers set_sources].
  now rewrite Htimers, Hagain.
Qed.

End WithPlatform.

Import Samples.


Lemma rejected_message_leaves_table_witness :
  (monitor_rows (onmessage (lit "not json") Samples.monitor_started)
   = monitor_rows Samples.monitor_started
   /\ sources (onmessage (lit "not json") Samples.monitor_started)
      = sources Samples.monitor_started
   /\ timers (onmessage (lit "not json") Samples.monitor_started)
      = timers Samples.monitor_started)
  /\ (monitor_rows (onmessage (lit "failed") Samples.monitor_started)
      = monitor_rows Samples.monitor_started
      /\ sources (onmessage (lit "failed") Samples.monitor_started)
         = sources Samples.monitor_started
      /\ timers (onmessage (lit "failed") Samples.monitor_started)
         = timers Samples.monitor_started).
Proof.
  split.
  - apply (rejected_message_leaves_table (lit "not json") Samples.monitor_started).
    left. reflexivity.
  - apply (rejected_message_leaves_table (lit "failed") Samples.monitor_started).
    right. exists (Samples.envelope false JUndef). split; [reflexivity|].
    left. reflexivity.
Defined.

Lemma stream_error_reconnects_after_fixed_delay_witness :
  let failed := step (Error 0) Samples.monitor_started in
  let again := step (Fire 0) failed in
  is_open 0 failed = false
  /\ sources failed = close_at 0 (sources Samples.monitor_started)
  /\ timers failed = [reconnect_timer]
  /\ delay_ms reconnect_timer = 1500
  /\ monitor_rows failed = monitor_rows Samples.monitor_started
  /\ sources again
     = close_at 0 (sources Samples.monitor_started)
         ++ [{| url := "/monitoring/stream"; closed := false |}]
  /\ timers again = []
  /\ forall n : nat,
       let later := retries n again in
       length (sources later) = length (sources again) + n
       /\ is_open (length (sources later) - 1) later = true
       /\ timers later = []
       /\ timers (step (Error (length (sources later) - 1)) later)
          = [reconnect_timer].
Proof.
  exact (stream_error_reconnects_after_fixed_delay Samples.monitor_started 0
           eq_refl).
Defined.

End MonitorProofs.

Module WalletProofs.
Import JS Wallet.

#[local] Arguments renderConnectedState : simpl never.
#[local] Arguments renderDisconnectedState : simpl never.
#[local] Arguments lit : simpl never.
#[local] Arguments default_label : simpl never.
#[local] Arguments shortAddress : simpl never.

(** Runs the synchronous stretch of a function up to its next await. *)
Ltac exec :=
  repeat progress
    (unfold run, persistWallet, clearWallet, hydrateFromServer,
       handleConnectClick, handleDisconnectClick, handleAccountsChanged,
       new_BrowserProvider, init, invoke, bind, try_catch, try_finally,
       await, await_call, tick, get, modify, ret, throw;
     cbn).

(** *** The click listeners after a rendering *)

Lemma listener_added (h : Handler) (e : Element) :
  existsb (handler_eqb h) (click_listeners (addEventListener h e)) = true.
Proof.
  cbn. destruct (existsb (handler_eqb h) (click_listeners e)) eqn:E.
  - exact E.
  - rewrite existsb_app. cbn. destruct h; cbn; apply orb_true_r.
Qed.

Lemma listener_removed (h : Handler) (e : Element) :
  existsb (handler_eqb h) (click_listeners (removeEventListener h e)) = false.
Proof.
  cbn. induction (click_listeners e) as [|h' rest IH]; cbn; [reflexivity|].
  destruct (handler_eqb h h') eqn:E; cbn; [exact IH|]. now rewrite E.
Qed.

Lemma listener_swapped (gone kept : Handler) (e : Element) :
  handler_eqb gone kept = false ->
  existsb (handler_eqb gone)
    (click_listeners (addEventListener kept (removeEventListener gone e)))
  = false.
Proof.
  intros Hne.
  pose proof (listener_removed gone e) as Hgone.
  unfold addEventListener. cbn [click_listeners] in *.
  destruct (existsb (handler_eqb kept) _); [exact Hgone|].
  rewrite existsb_app, Hgone. cbn. now rewrite Hne.
Qed.

(** What [renderDisconnectedState] leaves on a page that has the button
    and the address label. *)
Lemma renderDisconnectedState_page (label : jsstring) (s : State) (b a : Element) :
  button s = Some b ->
  addressTarget s = Some a ->
  exists b' a' : Element,
    button (renderDisconnectedState label s) = Some b'
    /\ addressTarget (renderDisconnectedState label s) = Some a'
    /\ textContent b' = label
    /\ existsb (handler_eqb HandleConnectClick) (click_listeners b') = true
    /\ existsb (handler_eqb HandleDisconnectClick) (click_listeners b') = false
    /\ data_connectedAddress b' = None
    /\ textContent a' = lit "Not connected"
    /\ data_state a' = Some (lit "disconnected").
Proof.
  intros Hb Ha. unfold renderDisconnectedState. rewrite Hb, Ha.
  eexists. eexists. cbn [button addressTarget set_addressTarget set_button].
  split; [reflexivity|]. split; [reflexivity|].
  cbn [textContent set_data_connectedAddress data_connectedAddress
         set_textContent set_data_state data_state click_listeners].
  split; [reflexivity|].
  split; [apply listener_added|].
  split; [now apply listener_swapped|].
  repeat split.
Qed.

Lemma renderDisconnectedState_frame (label : jsstring) (s : State) :
  walletAddress (renderDisconnectedState label s) = walletAddress s
  /\ provider (renderDisconnectedState label s) = provider s
  /\ signer (renderDisconnectedState label s) = signer s
  /\ saving (renderDisconnectedState label s) = saving s
  /\ console (renderDisconnectedState label s) = console s.
Proof.
  unfold renderDisconnectedState.
  destruct (button s), (addressTarget s); repeat split.
Qed.

Lemma renderConnectedState_frame (s : State) :
  walletAddress (renderConnectedState s) = walletAddress s
  /\ provider (renderConnectedState s) = provider s
  /\ signer (renderConnectedState s) = signer s
  /\ saving (renderConnectedState s) = saving s
  /\ console (renderConnectedState s) = console s.
Proof.
  unfold renderConnectedState.
  destruct (button s), (addressTarget s); repeat split.
Qed.

(** C5. A disconnect on a page that has the button and the address label
    ends, whether the DELETE resolves or is rejected, with the address,
    the provider and the signer cleared, the button reading "Connect
    wallet" and bound to the connect handler only, and the label reading
    "Not connected"; a rejected DELETE adds one line to the console and
    nothing else. *)
Theorem disconnect_ends_disconnected :
  forall (env : Env) (s : State) (b a : Element),
    button s = Some b ->
    addressTarget s = Some a ->
    let f := run env handleDisconnectClick s in
    completion f = Fulfilled tt
    /\ walletAddress (final f) = None
    /\ provider (final f) = None
    /\ signer (final f) = None
    /\ (exists b' a' : Element,
          button (final f) = Some b'
          /\ addressTarget (final f) = Some a'
          /\ textContent b' = lit "Connect wallet"
          /\ existsb (handler_eqb HandleConnectClick) (click_listeners b') = true
          /\ existsb (handler_eqb HandleDisconnectClick) (click_listeners b') = false
          /\ data_connectedAddress b' = None
          /\ textContent a' = lit "Not connected"
          /\ data_state a' = Some (lit "disconnected"))
    /\ console (final f)
       = console s
           ++ (if delete_rejected env
               then [(LogError, "Unable to clear wallet session"%string)]
               else []).
Proof.
  intros env s b a Hb Ha f. subst f. unfold delete_rejected. exec.
  destruct (env 0 Response (Fetch DeleteSession)) as [resp|e]; exec.
  - set (s1 := set_signer None (set_provider None (set_walletAddress None s))).
    destruct (renderDisconnectedState_frame default_label s1)
      as (Hw & Hp & Hs & _ & Hc).
    rewrite Hw, Hp, Hs, Hc. cbn. rewrite app_nil_r.
    repeat split.
    apply (renderDisconnectedState_page default_label s1 b a); assumption.
  - set (s1 := log LogError "Unable to clear wallet session"
                 (set_signer None (set_provider None (set_walletAddress None s)))).
    destruct (renderDisconnectedState_frame default_label s1)
      as (Hw & Hp & Hs & _ & Hc).
    rewrite Hw, Hp, Hs, Hc. cbn.
    repeat split.
    apply (renderDisconnectedState_page default_label s1 b a); assumption.
Qed.

Lemma disconnect_ends_disconnected_witness :
  let f := run Samples.env_offline handleDisconnectClick
             (renderConnectedState
                (set_walletAddress (Some Samples.sample_address)
                   Samples.wallet_loaded)) in
  completion f = Fulfilled tt
  /\ walletAddress (final f) = None
  /\ provider (final f) = None
  /\ signer (final f) = None
  /\ (exists b' a' : Element,
        button (final f) = Some b'
        /\ addressTarget (final f) = Some a'
        /\ textContent b' = lit "Connect wallet"
        /\ existsb (handler_eqb HandleConnectClick) (click_listeners b') = true
        /\ existsb (handler_eqb HandleDisconnectClick) (click_listeners b') = false
        /\ data_connectedAddress b' = None
        /\ textContent a' = lit "Not connected"
        /\ data_state a' = Some (lit "disconnected"))
  /\ console (final f)
     = [(LogError, "Unable to clear wallet session"%string)].
Proof.
  exact (disconnect_ends_disconnected Samples.env_offline
           (renderConnectedState
              (set_walletAddress (Some Samples.sample_address)
                 Samples.wallet_loaded))
           _ _ eq_refl eq_refl).
Defined.

(** C9. A call of [persistWallet] that finds [saving] false sets it and
    awaits the POST; when the POST settles, resolved or rejected and
    whatever other handlers did meanwhile, the call returns with [saving]
    false, so that the next call issues a POST again. A rejection adds one
    line to the console. *)
Theorem persistWallet_releases_saving :
  forall (address : option jsstring) (s : State),
    saving s = false ->
    exists k : Outcome Response -> State -> Res unit,
      persistWallet address s
      = Suspended (set_saving true s) (Fetch (PostSession address)) k
      /\ forall (o : Outcome Response) (s' : State),
           exists s'' : State,
             k o s' = Returned s'' tt
             /\ saving s'' = false
             /\ console s''
                = console s'
                    ++ match o with
                       | Resolved _ => []
                       | Rejected _ =>
                           [(LogError, "Unable to persist wallet session"%string)]
                       end
             /\ forall address' : option jsstring,
                  exists k' : Outcome Response -> State -> Res unit,
                    persistWallet address' s''
                    = Suspended (set_saving true s'')
                        (Fetch (PostSession address')) k'.
Proof.
  intros address s Hfree. exec. rewrite Hfree. exec.
  eexists. split; [reflexivity|].
  intros [resp|e] s'; cbn.
  - exists (set_saving false s'). cbn. rewrite app_nil_r.
    repeat split. intros address'. eexists. reflexivity.
  - exists (set_saving false
              (log LogError "Unable to persist wallet session" s')).
    cbn. repeat split. intros address'. eexists. reflexivity.
Qed.

Lemma persistWallet_releases_saving_witness :
  exists k : Outcome Response -> State -> Res unit,
    persistWallet (Some Samples.sample_address) Samples.wallet_loaded
    = Suspended (set_saving true Samples.wallet_loaded)
        (Fetch (PostSession (Some Samples.sample_address))) k
    /\ forall (o : Outcome Response) (s' : State),
         exists s'' : State,
           k o s' = Returned s'' tt
           /\ saving s'' = false
           /\ console s''
              = console s'
                  ++ match o with
                     | Resolved _ => []
                     | Rejected _ =>
                         [(LogError, "Unable to persist wallet session"%string)]
                     end
           /\ forall address' : option jsstring,
                exists k' : Outcome Response -> State -> Res unit,
                  persistWallet address' s''
                  = Suspended (set_saving true s'')
                      (Fetch (PostSession address')) k'.
Proof.
  exact (persistWallet_releases_saving (Some Samples.sample_address)
           Samples.wallet_loaded eq_refl).
Defined.

(** *** The single-flight guard *)

Lemma saving_renderConnectedState (s : State) :
  saving (renderConnectedState s) = saving s.
Proof. apply renderConnectedState_frame. Qed.

Lemma saving_renderDisconnectedState (label : jsstring) (s : State) :
  saving (renderDisconnectedState label s) = saving s.
Proof. apply renderDisconnectedState_frame. Qed.

Lemma saving_createModal (projectId : option jsstring) (s : State) :
  saving (snd (createModal projectId s)) = saving s.
Proof.
  unfold createModal. destruct (negb (truthy projectId)); [reflexivity|].
  destruct (window_Web3Modal s) as [[m|]|]; reflexivity.
Qed.

(** Neither rendering nor [createModal] touches [saving]. *)
Ltac frame :=
  repeat match goal with
         | |- context [saving (renderConnectedState ?s)] =>
             rewrite (saving_renderConnectedState s)
         | |- context [saving (renderDisconnectedState ?l ?s)] =>
             rewrite (saving_renderDisconnectedState l s)
         | |- context [saving (snd (createModal ?p ?s))] =>
             rewrite (saving_createModal p s)
         end.

Ltac flag_unchanged :=
  repeat progress (frame; cbn);
  first [reflexivity | assumption | congruence].

(** Follows a function through every branch and every await. *)
Ltac walk :=
  repeat (exec;
          match goal with
          | |- _ /\ _ => split
          | |- forall _, _ => intro
          | |- guarded _ _ ?r =>
              match r with
              | context [match ?x with _ => _ end] => destruct x eqn:?
              | context [if ?x then _ else _] => destruct x eqn:?
              end
          | |- _ = _ => solve [flag_unchanged]
          end).

(** Every function of [api] treats the flag as [guarded] asks, from its
    call to its end. *)
Lemma guarded_invoke (c : ApiCall) (s : State) :
  guarded false (saving s) (invoke c s).
Proof. destruct c; walk. Qed.

Lemma count_posts_app (l l' : list Pending) :
  count_posts (l ++ l') = count_posts l + count_posts l'.
Proof. unfold count_posts. now rewrite filter_app, length_app. Qed.

Lemma absorb_single_flight (r : Res unit) (others : list Pending)
    (own flag : bool) :
  guarded own flag r ->
  Forall well_guarded others ->
  count_posts others = (if own then 0 else if flag then 1 else 0) ->
  single_flight (absorb r others).
Proof.
  intros Hr Hothers Hcount. unfold single_flight, in_flight_posts.
  fold (count_posts (pending (absorb r others))).
  destruct r as [s a | s e | X s q k]; cbn [guarded] in Hr;
    cbn [absorb state pending].
  - split; [|exact Hothers]. rewrite Hr, Hcount. now destruct own.
  - split; [|exact Hothers]. rewrite Hr, Hcount. now destruct own.
  - assert (Hone : count_posts [{| awaited := q; resume := k |}]
                   = if is_post q then 1 else 0).
    { unfold count_posts. cbn. now destruct (is_post q). }
    rewrite count_posts_app, Hone, Hcount.
    assert (Hgood : (forall (o : Outcome X) (s' : State),
                       guarded (is_post q) (saving s') (k o s')) ->
                    Forall well_guarded
                      (others ++ [{| awaited := q; resume := k |}])).
    { intros Hk. apply Forall_app. split; [exact Hothers|].
      constructor; [|constructor]. exact Hk. }
    destruct (is_post q).
    + destruct Hr as (-> & -> & Hs & Hk). rewrite Hs. split.
      * reflexivity.
      * now apply Hgood.
    + destruct Hr as (Hs & Hk). rewrite Hs. split.
      * destruct own; [reflexivity|]. destruct flag; reflexivity.
      * now apply Hgood.
Qed.

Lemma step_single_flight (sys sys' : System) :
  single_flight sys -> step sys sys' -> single_flight sys'.
Proof.
  intros (Hcount & Hall) Hstep. unfold in_flight_posts in Hcount.
  fold (count_posts (pending sys)) in Hcount.
  destruct Hstep as [c sys | sys before after p o Hpending].
  - apply (absorb_single_flight _ _ false (saving (state sys))).
    + apply guarded_invoke.
    + exact Hall.
    + exact Hcount.
  - rewrite Hpending in Hall, Hcount.
    apply Forall_app in Hall. destruct Hall as (Hbefore & Hrest).
    inversion Hrest as [|p' after' Hp Hafter]; subst.
    rewrite count_posts_app in Hcount. unfold count_posts at 2 in Hcount.
    cbn [filter] in Hcount.
    apply (absorb_single_flight _ _ (is_post (awaited p)) (saving (state sys))).
    + apply Hp.
    + apply Forall_app. now split.
    + rewrite count_posts_app.
      destruct (is_post (awaited p)); cbn [length] in Hcount;
        fold (count_posts after) in Hcount.
      * destruct (saving (state sys)); lia.
      * exact Hcount.
Qed.

Lemma reachable_single_flight (sys : System) :
  reachable sys -> single_flight sys.
Proof.
  induction 1 as [sys (Hpending & Hsaving) | sys sys' _ IH Hstep].
  - unfold single_flight, in_flight_posts. rewrite Hpending, Hsaving.
    split; [reflexivity|constructor].
  - exact (step_single_flight sys sys' IH Hstep).
Qed.

(** C4. In every state the module can reach, by any calls of [api] and
    any settling of their awaits in any order, at most one POST to the
    session endpoint is in flight, and one is in flight exactly when
    [saving] is set; a call of [persistWallet] made while [saving] is set
    returns at once, leaving the state as it is and nothing to resume: it
    issues no POST and is not queued. *)
Theorem persist_is_single_flight :
  forall sys : System,
    reachable sys ->
    in_flight_posts sys <= 1
    /\ in_flight_posts sys = (if saving (state sys) then 1 else 0)
    /\ (saving (state sys) = true ->
        forall address : option jsstring,
          persistWallet address (state sys) = Returned (state sys) tt
          /\ absorb (persistWallet address (state sys)) (pending sys) = sys).
Proof.
  intros sys Hreach.
  destruct (reachable_single_flight sys Hreach) as (Hcount & _).
  split; [rewrite Hcount; destruct (saving (state sys)); lia|].
  split; [exact Hcount|].
  intros Hset address. exec. rewrite Hset. cbn. split; [reflexivity|].
  now destruct sys.
Qed.

Lemma persist_is_single_flight_witness :
  in_flight_posts Samples.wallet_persisting <= 1
  /\ in_flight_posts Samples.wallet_persisting
     = (if saving (state Samples.wallet_persisting) then 1 else 0)
  /\ (saving (state Samples.wallet_persisting) = true ->
      forall address : option jsstring,
        persistWallet address (state Samples.wallet_persisting)
        = Returned (state Samples.wallet_persisting) tt
        /\ absorb (persistWallet address (state Samples.wallet_persisting))
             (pending Samples.wallet_persisting) = Samples.wallet_persisting).
Proof.
  apply (persist_is_single_flight Samples.wallet_persisting).
  apply (@reachable_step {| state := Samples.wallet_loaded; pending := [] |}
           Samples.wallet_persisting).
  - apply reachable_loaded. split; reflexivity.
  - exact (@step_call (CallPersistWallet (Some Samples.sample_address))
             {| state := Samples.wallet_loaded; pending := [] |}).
Defined.

(** *** The connect flow *)

#[local] Arguments shows_connected : simpl never.

Lemma not_connected_after_renderDisconnectedState (s : State) :
  shows_connected (renderDisconnectedState (lit "Connect wallet") s) = false.
Proof.
  unfold shows_connected, renderDisconnectedState.
  destruct (button s) as [b|] eqn:Hb, (addressTarget s) as [a|] eqn:Ha;
    cbn; rewrite ?Hb, ?Ha; reflexivity.
Qed.

Lemma walletAddress_renderConnectedState (s : State) :
  walletAddress (renderConnectedState s) = walletAddress s.
Proof. apply renderConnectedState_frame. Qed.

(** Follows a run through every branch and every outcome of its awaits. *)
Ltac run_walk :=
  exec;
  repeat (match goal with
          | |- context [run_from _ _ ?r] =>
              match r with
              | context [match ?x with _ => _ end] => destruct x eqn:?
              | context [if ?x then _ else _] => destruct x eqn:?
              end
          end; exec).

(** The same for a run among other handlers. *)
Ltac among_walk :=
  unfold run_among; exec;
  repeat (match goal with
          | |- context [run_among_from _ _ _ ?r] =>
              match r with
              | context [match ?x with _ => _ end] => destruct x eqn:?
              | context [if ?x then _ else _] => destruct x eqn:?
              end
          end; exec).

(** C1 (amended). A connect flow, whatever the other handlers do while it
    awaits, leaves the button and the address label as they are in every
    stretch but its last. When it ends with the connected state shown, its
    call of [persistWallet] (l.80) has returned, in one of two ways.
    Either the call issued exactly one POST to the session endpoint, for
    the address the wallet gave, and that POST has settled, resolved or
    rejected alike. Or the flow issued no POST at all: its call found
    [saving] set, which it is exactly while the POST of another call is
    in flight (C4), and returned at once. *)
Theorem connected_shown_after_persist_returned :
  forall (env : Env) (others : Others) (s : State),
    let f := run_among env others handleConnectClick s in
    Forall page_untouched (stretches others s (history f))
    /\ (shows_connected (final f) = true ->
        exists a : jsstring,
          wallet_addresses (history f) = [a]
          /\ ((exists o : Outcome Response,
                 posts (history f) = [(Some a, o)])
              \/ (posts (history f) = []
                  /\ exists sp : State,
                       last_suspension (history f) = Some sp
                       /\ saving sp = true
                       /\ walletAddress sp = Some a))).
Proof.
  intros env others s f. subst f. among_walk.
  all: split; [repeat constructor|].
  all: intros Hshow.
  all: lazymatch type of Hshow with
       | shows_connected (renderDisconnectedState _ ?s0) = true =>
           rewrite (not_connected_after_renderDisconnectedState s0) in Hshow;
           discriminate Hshow
       | shows_connected (renderConnectedState ?s0) = true =>
           eexists; split; [reflexivity|];
           first [ left; eexists; reflexivity
                 | right; split; [reflexivity|];
                   eexists; split; [reflexivity|];
                   split; [assumption|reflexivity] ]
       end.
Qed.

Lemma connected_shown_after_persist_returned_witness :
  (let f := run_among (Samples.env_ok None) Samples.nothing_meanwhile
              handleConnectClick Samples.wallet_loaded in
   shows_connected (final f) = true
   /\ posts (history f)
      = [(Some Samples.sample_address, Resolved {| http_ok := true |})])
  /\ (let f := run_among (Samples.env_ok None) Samples.account_reported_meanwhile
                 handleConnectClick Samples.wallet_loaded in
      shows_connected (final f) = true
      /\ posts (history f) = []
      /\ saving (final f) = true
      /\ exists a : jsstring,
           wallet_addresses (history f) = [a]
           /\ ((exists o : Outcome Response,
                  posts (history f) = [(Some a, o)])
               \/ (posts (history f) = []
                   /\ exists sp : State,
                        last_suspension (history f) = Some sp
                        /\ saving sp = true
                        /\ walletAddress sp = Some a))).
Proof.
  split.
  - destruct (connected_shown_after_persist_returned (Samples.env_ok None)
                Samples.nothing_meanwhile Samples.wallet_loaded)
      as (_ & Hshown).
    destruct (Hshown eq_refl) as (a & _ & _).
    split; reflexivity.
  - split; [reflexivity|]. split; [reflexivity|]. split; [reflexivity|].
    apply (connected_shown_after_persist_returned (Samples.env_ok None)
             Samples.account_reported_meanwhile Samples.wallet_loaded).
    reflexivity.
Defined.

(** C1 (as stated) fails: with the network down the POST is rejected, the
    failure is logged, and the page shows the connected state all the
    same; no POST has succeeded. *)
Lemma connected_shown_though_post_rejected :
  let f := run Samples.env_offline handleConnectClick Samples.wallet_loaded in
  shows_connected (final f) = true
  /\ posts (history f)
     = [(Some Samples.sample_address, Rejected (Rejection 0))]
  /\ existsb (fun p => succeeded (snd p)) (posts (history f)) = false
  /\ console (final f)
     = [(LogError, "Unable to persist wallet session"%string)].
Proof. vm_compute. repeat split. Qed.

Lemma reachable_start (c : ApiCall) (sys : System) :
  reachable sys -> reachable (start c sys).
Proof.
  intros H. apply (@reachable_step sys _ H). exact (@step_call c sys).
Qed.

Lemma nth_error_parts {A : Type} (l : list A) (i : nat) (a : A) :
  nth_error l i = Some a -> l = firstn i l ++ a :: skipn (S i) l.
Proof.
  revert i. induction l as [|x rest IH]; intros [|j] H; cbn in *;
    try discriminate.
  - now injection H as ->.
  - now rewrite <- (IH j H).
Qed.

Lemma reachable_settle_nth (i : nat) (answer : forall X : Type, Req X -> Outcome X)
    (sys : System) :
  reachable sys -> reachable (settle_nth i answer sys).
Proof.
  intros H. unfold settle_nth.
  destruct (nth_error (pending sys) i) as [p|] eqn:Hnth; [|exact H].
  apply (@reachable_step sys _ H).
  exact (@step_settle sys _ _ p (answer _ (awaited p))
           (nth_error_parts (pending sys) i p Hnth)).
Qed.

(** The second way of C1 happens in the event loop: the wallet reports
    its account while a connect click awaits [eth_requestAccounts]; the
    click then finds [saving] set, issues no POST and shows the connected
    state, while the only request in flight is the POST of
    [handleAccountsChanged], which has not settled. *)
Lemma connected_shown_while_post_in_flight :
  reachable Samples.connect_overtaken
  /\ shows_connected (state Samples.connect_overtaken) = true
  /\ saving (state Samples.connect_overtaken) = true
  /\ in_flight_posts Samples.connect_overtaken = 1
  /\ length (pending Samples.connect_overtaken) = 1.
Proof.
  split.
  - unfold Samples.connect_overtaken.
    repeat apply reachable_settle_nth. repeat apply reachable_start.
    apply reachable_loaded. split; reflexivity.
  - vm_compute. repeat split.
Qed.

(** *** The address label *)

Lemma shortAddress_cases (a : jsstring) :
  shortAddress (Some a)
  = if length a <? 10 then a
    else first_chars 6 a ++ short_separator ++ last_chars 4 a.
Proof.
  unfold shortAddress. destruct a as [|c rest]; [reflexivity|].
  cbn [truthy negb orb]. destruct (length (c :: rest) <? 10); [reflexivity|].
  change 6%Z with (Z.of_nat 6). change (-4)%Z with (- Z.of_nat 4)%Z.
  rewrite JSFacts.slice_prefix, JSFacts.slice_suffix by lia. reflexivity.
Qed.

(** C2 (defect). The label is the first six characters, the separator of
    l.191 and the last four characters, or the address itself when it is
    shorter than ten characters. The separator is not the ellipsis: it is
    the three characters U+00E2, U+20AC, U+00A6. Hydration with
    [{ok: true, data: {address: "0xABCDEF1234567890"}}] sets the button to
    "Disconnect" and the label to "0xABCD", these three characters and
    "7890". *)
Theorem short_address_separator_is_not_the_ellipsis :
  (forall a : jsstring,
      shortAddress (Some a)
      = if length a <? 10 then a
        else first_chars 6 a ++ short_separator ++ last_chars 4 a)
  /\ short_separator = [226%N; 8364%N; 166%N]
  /\ short_separator <> [ellipsis]
  /\ let f := run (Samples.env_ok (Some Samples.session_body))
                hydrateFromServer Samples.wallet_loaded in
     option_map textContent (button (final f)) = Some (lit "Disconnect")
     /\ option_map textContent (addressTarget (final f))
        = Some (lit "0xABCD" ++ short_separator ++ lit "7890")
     /\ option_map textContent (addressTarget (final f))
        <> Some (lit "0xABCD" ++ [ellipsis] ++ lit "7890").
Proof.
  split; [exact shortAddress_cases|].
  split; [reflexivity|].
  split; [discriminate|].
  vm_compute. repeat split. discriminate.
Qed.

End WalletProofs.

(** * Further properties *)

Module DrawerExtras.
Import NavDrawer.

Lemma in_sync_openDrawer (s : State) :
  hidden s = true -> in_sync (fst (openDrawer s)).
Proof.
  intros E. unfold openDrawer. rewrite E. cbn [negb].
  assert (Hall : forall l : list (option bool),
             Forall (fun a => a = Some true) (map (fun _ => Some true) l)).
  { induction l; cbn; constructor; auto. }
  rewrite DrawerProofs.getFocusable_throws. cbn. split;
    [reflexivity | apply Hall].
Qed.

Lemma in_sync_closeDrawer (s : State) :
  hidden s = false -> in_sync (fst (closeDrawer s)).
Proof.
  intros E. unfold closeDrawer. rewrite E.
  assert (Hall : forall l : list (option bool),
             Forall (fun a => a = Some false) (map (fun _ => Some false) l)).
  { induction l; cbn; constructor; auto. }
  cbn. destruct (lastActiveElement s) as [e|];
    [unfold focus; destruct (takes_focus _ e)|];
    cbn; split; try reflexivity; apply Hall.
Qed.

Lemma in_sync_after_openDrawer (s : State) :
  in_sync s -> in_sync (fst (openDrawer s)).
Proof.
  intros H. destruct (hidden s) eqn:E.
  - now apply in_sync_openDrawer.
  - now rewrite DrawerProofs.openDrawer_noop.
Qed.

Lemma in_sync_after_closeDrawer (s : State) :
  in_sync s -> in_sync (fst (closeDrawer s)).
Proof.
  intros H. destruct (hidden s) eqn:E.
  - now rewrite DrawerProofs.closeDrawer_noop.
  - now apply in_sync_closeDrawer.
Qed.

Lemma in_sync_focus (e : Elem) (s : State) : in_sync s -> in_sync (focus e s).
Proof. intros H. unfold focus. destruct (takes_focus s e); exact H. Qed.

Lemma in_sync_dispatchClick (inside : bool) (s : State) :
  in_sync s -> in_sync (dispatchClick inside s).
Proof.
  intros H. unfold dispatchClick, handleClickOutside.
  destruct (click_listener s); [|exact H].
  destruct inside; [exact H|]. now apply in_sync_after_closeDrawer.
Qed.

Lemma in_sync_dispatch (e : Event) (s : State) :
  in_sync s -> in_sync (dispatch e s).
Proof.
  intros H. destruct e as [inside|narrow|narrow|event|inside]; cbn [dispatch].
  - pose proof (in_sync_dispatchClick inside s H) as H'.
    unfold toggleClick. destruct (hidden (dispatchClick inside s)).
    + now apply in_sync_after_openDrawer.
    + now apply in_sync_after_closeDrawer.
  - pose proof (in_sync_dispatchClick true s H) as H'.
    unfold linkClick. destruct narrow; [|exact H'].
    now apply in_sync_after_closeDrawer.
  - unfold handleResize. destruct narrow; cbn [negb]; [exact H|].
    now apply in_sync_after_closeDrawer.
  - unfold dispatchKeydown. destruct (keydown_listener s); [|exact H].
    unfold handleKeydown. destruct (key event).
    + pose proof (in_sync_after_closeDrawer s H) as H'.
      destruct (closeDrawer s) as [s' c]. exact H'.
    + destruct (getFocusable s) as [err|focusable]; [exact H|].
      unfold cycleFocus. destruct focusable as [|first rest]; [exact H|].
      destruct (negb (shiftKey event) && _); [now apply in_sync_focus|].
      destruct (shiftKey event && _); [now apply in_sync_focus|exact H].
    + exact H.
  - now apply in_sync_dispatchClick.
Qed.

(** X1. A click on a toggle button always flips whether the drawer is
    shown, whatever the state before, and leaves the body class and the
    [aria-expanded] of every toggle button in agreement with the new
    state. *)
Theorem toggle_click_flips_and_syncs :
  forall s : State,
    visible (fst (toggleClick s)) = negb (visible s)
    /\ in_sync (fst (toggleClick s)).
Proof.
  intros s. unfold toggleClick, visible. destruct (hidden s) eqn:E.
  - rewrite DrawerProofs.openDrawer_hidden. split; [reflexivity|].
    now apply in_sync_openDrawer.
  - rewrite DrawerProofs.closeDrawer_hidden. split; [reflexivity|].
    now apply in_sync_closeDrawer.
Qed.

(** X2. Once the body class and the [aria-expanded] attributes agree with
    the drawer's visibility, they agree after every sequence of toggle
    clicks, link clicks, resizes, key presses and other clicks. *)
Theorem events_keep_drawer_in_sync :
  forall (es : list Event) (s : State),
    in_sync s -> in_sync (events es s).
Proof.
  unfold events. induction es as [|e es IH]; intros s H; cbn [fold_left].
  - exact H.
  - apply IH. now apply in_sync_dispatch.
Qed.

Lemma events_keep_drawer_in_sync_witness :
  in_sync
    (events [ToggleClick false; Keydown {| key := Tab; shiftKey := false |};
             Resize false; ToggleClick false; LinkClick true]
       Samples.drawer_closed).
Proof.
  apply (events_keep_drawer_in_sync _ Samples.drawer_closed).
  split; [reflexivity|]. repeat constructor.
Defined.

Lemma dispatch_keeps_listeners_off (e : Event) (s : State) :
  keydown_listener s = false ->
  click_listener s = false ->
  keydown_listener (dispatch e s) = false
  /\ click_listener (dispatch e s) = false.
Proof.
  intros Hk Hc.
  assert (Hopen : forall s0, keydown_listener s0 = false ->
                    click_listener s0 = false ->
                    keydown_listener (fst (openDrawer s0)) = false
                    /\ click_listener (fst (openDrawer s0)) = false).
  { intros s0 Hk0 Hc0. unfold openDrawer. destruct (hidden s0); cbn [negb].
    - rewrite DrawerProofs.getFocusable_throws. cbn. now split.
    - now split. }
  assert (Hclose : forall s0,
                    keydown_listener (fst (closeDrawer s0)) = keydown_listener s0 && hidden s0
                    /\ click_listener (fst (closeDrawer s0)) = click_listener s0 && hidden s0).
  { intros s0. unfold closeDrawer. destruct (hidden s0) eqn:E.
    - cbn. now rewrite !andb_true_r.
    - cbn. destruct (lastActiveElement s0) as [e0|];
        [unfold focus; destruct (takes_focus _ e0)|];
        cbn; now rewrite !andb_false_r. }
  assert (Hclose' : forall s0, keydown_listener s0 = false ->
                      click_listener s0 = false ->
                      keydown_listener (fst (closeDrawer s0)) = false
                      /\ click_listener (fst (closeDrawer s0)) = false).
  { intros s0 Hk0 Hc0. destruct (Hclose s0) as (-> & ->).
    now rewrite Hk0, Hc0. }
  assert (Hclick : forall inside, dispatchClick inside s = s).
  { intros inside. unfold dispatchClick. now rewrite Hc. }
  destruct e as [inside|narrow|narrow|event|inside]; cbn [dispatch].
  - rewrite Hclick. unfold toggleClick. destruct (hidden s); auto.
  - rewrite Hclick. unfold linkClick. destruct narrow; auto.
  - unfold handleResize. destruct narrow; cbn [negb]; auto.
  - unfold dispatchKeydown. rewrite Hk. cbn. auto.
  - rewrite Hclick. auto.
Qed.

(** X3. On a page where the keydown and click listeners of the document
    are not installed, as when the script is loaded, no sequence of events
    installs them: [openDrawer] stops at [getFocusable] before l.39-40. So
    a key press, Escape included, and a click outside the drawer leave the
    drawer exactly as it is; only a toggle button, a link or a resize
    closes it. *)
Theorem document_listeners_never_installed :
  forall (es : list Event) (s : State),
    keydown_listener s = false ->
    click_listener s = false ->
    keydown_listener (events es s) = false
    /\ click_listener (events es s) = false
    /\ (forall event : KeyEvent,
          dispatch (Keydown event) (events es s) = events es s)
    /\ (forall inside : bool,
          dispatch (ClickElsewhere inside) (events es s) = events es s).
Proof.
  intros es s Hk Hc.
  assert (Hoff : keydown_listener (events es s) = false
                 /\ click_listener (events es s) = false).
  { unfold events. revert s Hk Hc.
    induction es as [|e es IH]; intros s Hk Hc; cbn [fold_left].
    - now split.
    - destruct (dispatch_keeps_listeners_off e s Hk Hc) as (Hk' & Hc').
      now apply IH. }
  destruct Hoff as (Hk' & Hc').
  split; [exact Hk'|]. split; [exact Hc'|]. split.
  - intros event. cbn [dispatch]. unfold dispatchKeydown. now rewrite Hk'.
  - intros inside. cbn [dispatch]. unfold dispatchClick. now rewrite Hc'.
Qed.

Lemma document_listeners_never_installed_witness :
  keydown_listener (events [ToggleClick false] Samples.drawer_closed) = false
  /\ click_listener (events [ToggleClick false] Samples.drawer_closed) = false
  /\ (forall event : KeyEvent,
        dispatch (Keydown event) (events [ToggleClick false] Samples.drawer_closed)
        = events [ToggleClick false] Samples.drawer_closed)
  /\ (forall inside : bool,
        dispatch (ClickElsewhere inside)
          (events [ToggleClick false] Samples.drawer_closed)
        = events [ToggleClick false] Samples.drawer_closed).
Proof.
  exact (document_listeners_never_installed [ToggleClick false]
           Samples.drawer_closed eq_refl eq_refl).
Defined.

(** X4. Closing the drawer gives the focus back to the element that had
    it when the drawer was opened, provided that element still takes the
    focus when the drawer is closed; when it does not, or when no element
    had the focus, the focus stays where it is. This holds wherever the
    focus went and whatever the page did to its elements in between, as
    long as the drawer is still shown. *)
Theorem close_restores_focus :
  forall s t : State,
    hidden s = true ->
    hidden t = false ->
    lastActiveElement t = lastActiveElement (call Open s) ->
    lastActiveElement (call Open s) = activeElement s
    /\ activeElement (call Close t)
       = match activeElement s with
         | Some e => if takes_focus t e then Some e else activeElement t
         | None => activeElement t
         end
    /\ visible (call Close t) = false.
Proof.
  intros s t Hhidden Hshown Hlast.
  assert (Hopen : lastActiveElement (call Open s) = activeElement s).
  { cbn [call]. unfold openDrawer. rewrite Hhidden. cbn [negb].
    now rewrite DrawerProofs.getFocusable_throws. }
  rewrite Hopen in Hlast. split; [exact Hopen|].
  cbn [call]. unfold closeDrawer, visible. rewrite Hshown.
  cbn [lastActiveElement set_listeners setAria set_is_nav_open set_hidden].
  rewrite Hlast. destruct (activeElement s) as [e|]; [|now split].
  unfold focus.
  cbn [takes_focus set_listeners setAria set_is_nav_open set_hidden].
  destruct (takes_focus t e); now split.
Qed.

Lemma close_restores_focus_witness :
  (lastActiveElement (call Open Samples.drawer_closed) = Some 0
   /\ activeElement
        (call Close
           (set_activeElement (Some 2) (call Open Samples.drawer_closed)))
      = Some 0
   /\ visible
        (call Close
           (set_activeElement (Some 2) (call Open Samples.drawer_closed)))
      = false)
  /\ (lastActiveElement (call Open Samples.drawer_closed_at_body) = Some 9
      /\ activeElement
           (call Close
              (set_activeElement (Some 2)
                 (call Open Samples.drawer_closed_at_body)))
         = Some 2
      /\ visible
           (call Close
              (set_activeElement (Some 2)
                 (call Open Samples.drawer_closed_at_body)))
         = false).
Proof.
  split.
  - exact (close_restores_focus Samples.drawer_closed
             (set_activeElement (Some 2) (call Open Samples.drawer_closed))
             eq_refl eq_refl eq_refl).
  - exact (close_restores_focus Samples.drawer_closed_at_body
             (set_activeElement (Some 2)
                (call Open Samples.drawer_closed_at_body))
             eq_refl eq_refl eq_refl).
Defined.

End DrawerExtras.

Module MonitorExtras.
Import JS Monitor.

Section WithPlatform.

Context {numbers : Numbers} {platform : Platform}.

Implicit Types (rows : list Tr) (row : Tr) (id : jsstring) (s : State).

Lemma renderRow_id (snapshot : JsVal) row :
  renderRow snapshot = Some row ->
  tr_id row = row_id (prop snapshot "run_id").
Proof.
  unfold renderRow. destruct (row_markup snapshot); [|discriminate].
  intros H. injection H as <-. reflexivity.
Qed.

Lemma renderRow_sliceable (snapshot : JsVal) :
  sliceable (prop snapshot "run_id") = false <-> renderRow snapshot = None.
Proof.
  unfold renderRow, row_markup.
  destruct (prop snapshot "run_id"); cbn [call_slice sliceable]; split;
    intros H; try reflexivity; discriminate.
Qed.

(** [upsertRow] on a page that has the table body. *)
Lemma upsertRow_table (snapshot : JsVal) s rows :
  monitor_rows s = Some rows ->
  upsertRow snapshot s
  = match renderRow snapshot with
    | None => None
    | Some row =>
        Some (set_rows
                (Some match getElementById (tr_id row) rows with
                      | Some i => replaceWith i row rows
                      | None => without_first_placeholder rows ++ [row]
                      end) s)
    end.
Proof.
  intros Hrows. unfold upsertRow. rewrite Hrows.
  destruct (renderRow snapshot) as [row|] eqn:Hrender; [|reflexivity].
  rewrite (renderRow_id snapshot row Hrender).
  destruct (getElementById _ rows); [reflexivity|].
  now rewrite MonitorProofs.remove_placeholder.
Qed.

Lemma count_id_upsert id rows row :
  count_id id match getElementById (tr_id row) rows with
              | Some i => replaceWith i row rows
              | None => without_first_placeholder rows ++ [row]
              end
  <= Nat.max (count_id id rows) 1.
Proof.
  destruct (getElementById (tr_id row) rows) as [i|] eqn:Ei.
  - rewrite (MonitorProofs.count_id_replaceWith (tr_id row) id rows row i Ei eq_refl).
    lia.
  - rewrite MonitorProofs.count_id_app.
    pose proof (MonitorProofs.count_id_without_first_placeholder_le id rows) as Hle.
    unfold count_id at 2. cbn.
    destruct (jsstring_eqb (tr_id row) id) eqn:E; cbn; [|lia].
    apply JSFacts.jsstring_eqb_eq in E. subst id.
    apply MonitorProofs.getElementById_None in Ei.
    pose proof (MonitorProofs.count_id_without_first_placeholder (tr_id row) rows Ei).
    lia.
Qed.

Lemma onmessage_frame (data : jsstring) s :
  sources (onmessage data s) = sources s
  /\ timers (onmessage data s) = timers s.
Proof.
  unfold onmessage. destruct (JSON_parse data) as [payload|]; [|now split].
  destruct (truthy payload && _ && _); [|now split].
  unfold upsertRow. destruct (monitor_rows s) as [rows|]; [|now split].
  destruct (renderRow _); [|now split].
  destruct (getElementById _ rows); now split.
Qed.

(** The rows after a message: those before, or those [upsertRow] made of
    them from some row. *)
Lemma onmessage_rows (data : jsstring) s :
  rows_of (onmessage data s) = rows_of s
  \/ exists row,
       rows_of (onmessage data s)
       = match getElementById (tr_id row) (rows_of s) with
         | Some i => replaceWith i row (rows_of s)
         | None => without_first_placeholder (rows_of s) ++ [row]
         end.
Proof.
  unfold onmessage. destruct (JSON_parse data) as [payload|]; [|now left].
  destruct (truthy payload && _ && _); [|now left].
  destruct (monitor_rows s) as [rows|] eqn:Hrows.
  - rewrite (upsertRow_table _ s rows Hrows).
    destruct (renderRow _) as [row|]; [|now left].
    right. exists row. unfold rows_of. now rewrite Hrows.
  - unfold upsertRow. rewrite Hrows. now left.
Qed.

Lemma step_rows (e : Event) s (id : jsstring) :
  count_id id (rows_of (step e s)) <= Nat.max (count_id id (rows_of s)) 1.
Proof.
  destruct e as [i data|i|j]; cbn [step].
  - destruct (is_open i s); [|lia].
    destruct (onmessage_rows data s) as [-> | (row & ->)]; [lia|].
    apply count_id_upsert.
  - destruct (is_open i s); [|lia].
    change (rows_of (onerror i s)) with (rows_of s). lia.
  - destruct (nth_error (timers s) j) as [[[] ms]|]; [|lia].
    change (rows_of (run_callback _ _)) with (rows_of s). lia.
Qed.

(** X5. Whatever the stream delivers, in whatever order, the number of
    rows that carry a given [id] never grows beyond one, or beyond what
    it was when it was more: a run never gets a second row. *)
Theorem deliver_never_duplicates_a_row :
  forall (es : list Event) (s : State) (id : jsstring),
    count_id id (rows_of (deliver es s))
    <= Nat.max (count_id id (rows_of s)) 1.
Proof.
  unfold deliver. induction es as [|e es IH]; intros s id; cbn [fold_left].
  - lia.
  - pose proof (IH (step e s) id) as H1.
    pose proof (step_rows e s id) as H2. lia.
Qed.

Lemma open_count_close_at (i : nat) (l : list Source) (es : Source) :
  nth_error l i = Some es ->
  closed es = false ->
  S (length (filter (fun e => negb (closed e)) (close_at i l)))
  = length (filter (fun e => negb (closed e)) l).
Proof.
  revert i. induction l as [|e rest IH]; intros [|j] Hnth Hopen; cbn in *;
    try discriminate.
  - injection Hnth as ->. rewrite Hopen. reflexivity.
  - destruct (negb (closed e)); cbn; now rewrite <- (IH j Hnth Hopen).
Qed.

Lemma length_remove_timer (j : nat) (l : list Timer) (t : Timer) :
  nth_error l j = Some t -> S (length (remove_timer j l)) = length l.
Proof.
  revert j. induction l as [|t' rest IH]; intros [|k] H; cbn in *;
    try discriminate.
  - reflexivity.
  - now rewrite (IH k H).
Qed.

Lemma step_stream (e : Event) s :
  open_count (step e s) + length (timers (step e s))
  = open_count s + length (timers s).
Proof.
  unfold open_count. destruct e as [i data|i|j]; cbn [step].
  - destruct (is_open i s); [|reflexivity].
    destruct (onmessage_frame data s) as (-> & ->). reflexivity.
  - destruct (is_open i s) eqn:Hopen; [|reflexivity].
    destruct (MonitorProofs.is_open_nth i s Hopen) as (es & Hnth & Hes).
    unfold onerror, setTimeout. cbn [sources timers set_timers set_sources].
    rewrite length_app. cbn [length].
    pose proof (open_count_close_at i (sources s) es Hnth Hes). lia.
  - destruct (nth_error (timers s) j) as [t|] eqn:Hnth; [|reflexivity].
    destruct t as [[] ms]. cbn [callback run_callback].
    unfold connectSSE. cbn [sources timers set_timers set_sources].
    rewrite filter_app, length_app. cbn.
    pose proof (length_remove_timer j (timers s) _ Hnth). lia.
Qed.

(** X6. The open streams and the pending reconnect timers together stay
    one: from a page with one open stream and no timer, after any events
    there is either exactly one open stream and no timer, or no open
    stream and exactly one timer. Two streams are never open at once. *)
Theorem one_stream_or_one_timer :
  forall (es : list Event) (s : State),
    open_count s + length (timers s) = 1 ->
    open_count (deliver es s) + length (timers (deliver es s)) = 1
    /\ open_count (deliver es s) <= 1.
Proof.
  intros es s H.
  assert (Hsum : open_count (deliver es s) + length (timers (deliver es s)) = 1).
  { unfold deliver. revert s H.
    induction es as [|e es IH]; intros s H; cbn [fold_left]; [exact H|].
    apply IH. now rewrite step_stream. }
  split; [exact Hsum|lia].
Qed.

(** X7. A message that parses and says [ok], but whose [data] has a
    [run_id] that is neither a string nor an array (a missing one, a
    number), leaves the table as it is; on a page with the table body the
    failure of [renderRow] is caught and reported as "SSE parse error", on
    a page without it nothing is reported. *)
Theorem unsliceable_run_id_leaves_table :
  forall (data : jsstring) (payload : JsVal) (s : State),
    JSON_parse data = Some payload ->
    truthy (prop payload "ok") = true ->
    truthy (prop payload "data") = true ->
    sliceable (prop (prop payload "data") "run_id") = false ->
    monitor_rows (onmessage data s) = monitor_rows s
    /\ console (onmessage data s)
       = console s
           ++ match monitor_rows s with
              | Some _ => ["SSE parse error"%string]
              | None => []
              end.
Proof.
  intros data payload s Hparse Hok Hdata Hrun.
  assert (Hpay : truthy payload = true).
  { destruct payload; cbn in Hok; try discriminate; reflexivity. }
  unfold onmessage. rewrite Hparse, Hpay, Hok, Hdata. cbn [andb].
  destruct (monitor_rows s) as [rows|] eqn:Hrows.
  - rewrite (upsertRow_table _ s rows Hrows).
    apply renderRow_sliceable in Hrun. rewrite Hrun. cbn.
    now rewrite Hrows.
  - unfold upsertRow. rewrite Hrows, Hrows. now rewrite app_nil_r.
Qed.







End WithPlatform.

Import Samples.

Lemma one_stream_or_one_timer_witness :
  open_count (deliver [Message 0 (lit "first"); Error 0; Error 0; Fire 0]
                monitor_started)
  + length (timers (deliver [Message 0 (lit "first"); Error 0; Error 0; Fire 0]
                      monitor_started)) = 1
  /\ open_count (deliver [Message 0 (lit "first"); Error 0; Error 0; Fire 0]
                   monitor_started) <= 1.
Proof.
  exact (one_stream_or_one_timer
           [Message 0 (lit "first"); Error 0; Error 0; Fire 0]
           monitor_started eq_refl).
Defined.

Lemma unsliceable_run_id_leaves_table_witness :
  monitor_rows (onmessage (platform := with_missing_run_id) (lit "no run id")
                  monitor_started)
  = monitor_rows monitor_started
  /\ console (onmessage (platform := with_missing_run_id) (lit "no run id")
                monitor_started)
     = ["SSE parse error"%string].
Proof.
  exact (unsliceable_run_id_leaves_table (platform := with_missing_run_id)
           (lit "no run id")
           (envelope true (JObj [ (lit "market", JStr (lit "ETH")) ]))
           monitor_started eq_refl eq_refl eq_refl eq_refl).
Defined.



End MonitorExtras.

Module WalletExtras.
Import JS Wallet WalletProofs.

#[local] Arguments renderConnectedState : simpl never.
#[local] Arguments renderDisconnectedState : simpl never.
#[local] Arguments lit : simpl never.
#[local] Arguments default_label : simpl never.
#[local] Arguments shortAddress : simpl never.
#[local] Arguments shows_connected : simpl never.

(** Follows a function through every branch and every await. *)
Ltac settle_walk :=
  repeat (exec;
          match goal with
          | |- forall _, _ => intro
          | |- True => exact I
          | |- never_rejects ?r =>
              match r with
              | context [match ?x with _ => _ end] => destruct x eqn:?
              | context [if ?x then _ else _] => destruct x eqn:?
              end
          end).

(** X10. No function of [api] ever ends by throwing: whatever its awaits
    settle with, and whatever other handlers do while it is suspended, its
    promise is fulfilled. Every failure is caught inside the module. *)
Theorem api_never_rejects :
  forall (c : ApiCall) (s : State), never_rejects (invoke c s).
Proof. intros c s. destruct c; settle_walk. Qed.

Lemma renderConnectedState_page (s : State) (b a : Element) :
  button s = Some b ->
  addressTarget s = Some a ->
  exists b' a' : Element,
    button (renderConnectedState s) = Some b'
    /\ addressTarget (renderConnectedState s) = Some a'
    /\ textContent b' = lit "Disconnect"
    /\ bound HandleDisconnectClick b' = true
    /\ bound HandleConnectClick b' = false
    /\ data_connectedAddress b' = Some (to_string (walletAddress s))
    /\ textContent a' = shortAddress (walletAddress s)
    /\ data_state a' = Some (lit "connected").
Proof.
  intros Hb Ha. unfold renderConnectedState. rewrite Hb, Ha.
  eexists. eexists. cbn [button addressTarget set_addressTarget set_button].
  split; [reflexivity|]. split; [reflexivity|]. unfold bound.
  cbn [textContent set_data_connectedAddress data_connectedAddress
         set_textContent set_data_state data_state click_listeners].
  split; [reflexivity|].
  split; [apply listener_added|].
  split; [now apply listener_swapped|].
  repeat split.
Qed.


(** The page after the last step of a successful hydration (l.44-46). *)
Lemma hydrated_page (s : State) (b a e : Element) (addr : jsstring) :
  button s = Some b ->
  addressTarget s = Some a ->
  button (renderConnectedState (set_walletAddress (Some addr) s)) = Some e ->
  exists b' a' : Element,
    button (set_button
              (Some (set_data_connectedAddress
                       (Some (to_string
                                (walletAddress
                                   (renderConnectedState
                                      (set_walletAddress (Some addr) s))))) e))
              (renderConnectedState (set_walletAddress (Some addr) s)))
    = Some b'
    /\ addressTarget (renderConnectedState (set_walletAddress (Some addr) s))
       = Some a'
    /\ textContent b' = lit "Disconnect"
    /\ bound HandleDisconnectClick b' = true
    /\ bound HandleConnectClick b' = false
    /\ data_connectedAddress b' = Some addr
    /\ textContent a' = shortAddress (Some addr)
    /\ data_state a' = Some (lit "connected").
Proof.
  intros Hb Ha He.
  destruct (renderConnectedState_page (set_walletAddress (Some addr) s) b a Hb Ha)
    as (b' & a' & Hb' & Ha' & Ht & Hd & Hc & _ & Hl & Hst).
  rewrite Hb' in He. injection He as <-.
  exists (set_data_connectedAddress
            (Some (to_string
                     (walletAddress
                        (renderConnectedState (set_walletAddress (Some addr) s)))))
            b'), a'.
  rewrite (walletAddress_renderConnectedState (set_walletAddress (Some addr) s)).
  cbn [walletAddress set_walletAddress to_string] in *.
  repeat split; assumption.
Qed.

(** X11. On a page that has the button and the address label, a hydration
    issues the GET and no other request and never throws. When the body
    says [ok] and carries a non-empty address, the address is adopted and
    the page shows the connected state for it; in every other case (the
    GET or the reading of the body rejected, [ok] falsy, no address) the
    address is left as it was and the page shows the disconnected state
    with the default label. *)
Theorem hydration_renders_what_the_server_says :
  forall (env : Env) (s : State) (b a : Element),
    button s = Some b ->
    addressTarget s = Some a ->
    let f := run env hydrateFromServer s in
    completion f = Fulfilled tt
    /\ fetches (history f) = [GetSession]
    /\ match hydrated env with
       | Some addr =>
           walletAddress (final f) = Some addr
           /\ exists b' a' : Element,
                button (final f) = Some b'
                /\ addressTarget (final f) = Some a'
                /\ textContent b' = lit "Disconnect"
                /\ bound HandleDisconnectClick b' = true
                /\ bound HandleConnectClick b' = false
                /\ data_connectedAddress b' = Some addr
                /\ textContent a' = shortAddress (Some addr)
                /\ data_state a' = Some (lit "connected")
       | None =>
           walletAddress (final f) = walletAddress s
           /\ exists b' a' : Element,
                button (final f) = Some b'
                /\ addressTarget (final f) = Some a'
                /\ textContent b' = lit "Connect wallet"
                /\ existsb (handler_eqb HandleConnectClick) (click_listeners b') = true
                /\ existsb (handler_eqb HandleDisconnectClick) (click_listeners b') = false
                /\ data_connectedAddress b' = None
                /\ textContent a' = lit "Not connected"
                /\ data_state a' = Some (lit "disconnected")
       end.
Proof.
  intros env s b a Hb Ha f. subst f. unfold hydrated, session_address.
  run_walk.
  all: split; [reflexivity|]; split; [reflexivity|].
  all: lazymatch goal with
       | Hnone : button (renderConnectedState ?s1) = None |- _ =>
           destruct (renderConnectedState_page s1 b a Hb Ha) as (? & ? & Hsome & _);
           rewrite Hsome in Hnone; discriminate Hnone
       | Hsome : button (renderConnectedState _) = Some ?e |- _ =>
           split;
           [ rewrite (walletAddress_renderConnectedState
                        (set_walletAddress _ s)); reflexivity
           | exact (hydrated_page s b a e _ Hb Ha Hsome) ]
       | |- _ => idtac
       end.
  all: lazymatch goal with
       | |- walletAddress (renderDisconnectedState ?l ?s0) = _ /\ _ =>
           split;
           [ destruct (renderDisconnectedState_frame l s0) as (-> & _); reflexivity
           | apply (renderDisconnectedState_page l s0 b a); assumption ]
       end.
Qed.

Lemma console_renderDisconnectedState (l : jsstring) (s : State) :
  console (renderDisconnectedState l s) = console s.
Proof. apply renderDisconnectedState_frame. Qed.

Lemma connected_page_shows (s : State) (b a : Element) :
  button s = Some b -> addressTarget s = Some a ->
  shows_connected (renderConnectedState s) = true.
Proof.
  intros Hb Ha. unfold shows_connected, renderConnectedState.
  rewrite Hb, Ha. cbn. reflexivity.
Qed.

(** X12. On a page that has the button and the address label, a connect
    click never throws and ends in one of two ways: the page shows the
    connected state, or the button is back to "Connect wallet" with the
    connect handler bound, the label reads "Not connected" and the last
    line of the console is "Wallet connect failed". *)
Theorem connect_click_ends_connected_or_reverted :
  forall (env : Env) (s : State) (b a : Element),
    button s = Some b ->
    addressTarget s = Some a ->
    let f := run env handleConnectClick s in
    completion f = Fulfilled tt
    /\ (shows_connected (final f) = true
        \/ (exists b' a' : Element,
              button (final f) = Some b'
              /\ addressTarget (final f) = Some a'
              /\ textContent b' = lit "Connect wallet"
              /\ existsb (handler_eqb HandleConnectClick) (click_listeners b') = true
              /\ existsb (handler_eqb HandleDisconnectClick) (click_listeners b') = false
              /\ data_connectedAddress b' = None
              /\ textContent a' = lit "Not connected"
              /\ data_state a' = Some (lit "disconnected"))
           /\ exists earlier : list (Level * string),
                console (final f)
                = earlier ++ [(LogError, "Wallet connect failed"%string)]).
Proof.
  intros env s b a Hb Ha f. subst f. run_walk.
  all: split; [reflexivity|].
  all: lazymatch goal with
       | |- shows_connected (renderConnectedState ?s0) = true \/ _ =>
           left; exact (connected_page_shows s0 b a Hb Ha)
       | |- shows_connected (renderDisconnectedState ?l (log ?lv ?msg ?s0)) = true \/ _ =>
           right; split;
           [ exact (renderDisconnectedState_page l (log lv msg s0) b a Hb Ha)
           | exists (console s0);
             rewrite (console_renderDisconnectedState l (log lv msg s0));
             reflexivity ]
       end.
Qed.

(** X13. With no modal, no provider from an earlier connect and no
    [window.ethereum], a connect click awaits nothing: no wallet prompt
    and no request; it logs the failure and renders the disconnected
    state. *)
Theorem connect_click_without_wallet :
  forall (env : Env) (s : State),
    modal s = None ->
    provider s = None ->
    window_ethereum s = None ->
    history (run env handleConnectClick s) = []
    /\ final (run env handleConnectClick s)
       = renderDisconnectedState (lit "Connect wallet")
           (log LogError "Wallet connect failed" s).
Proof.
  intros env s Hm Hp He. exec. rewrite Hm. exec. rewrite Hp, He. exec.
  now split.
Qed.

(** X14. An [accountsChanged] notification with no accounts, a falsy
    value or an empty array, leaves exactly the state a disconnect click
    leaves, and issues the DELETE and no other request. *)
Theorem empty_accounts_is_a_disconnect :
  forall (env : Env) (s : State),
    final (run env (handleAccountsChanged None) s)
    = final (run env handleDisconnectClick s)
    /\ final (run env (handleAccountsChanged (Some [])) s)
       = final (run env handleDisconnectClick s)
    /\ fetches (history (run env (handleAccountsChanged (Some [])) s))
       = [DeleteSession].
Proof.
  intros env s. exec.
  destruct (env 0 Response (Fetch DeleteSession)); exec; repeat split.
Qed.

(** X15. An [accountsChanged] notification with accounts adopts the first
    one: it becomes the wallet address, is sent in one POST unless a
    persist is in progress, and the page shows the connected state for it.
    The provider and the signer are left as they were. *)
Theorem accounts_changed_adopts_first_account :
  forall (env : Env) (s : State) (b a : Element) (first : jsstring)
         (others : list jsstring),
    button s = Some b ->
    addressTarget s = Some a ->
    let f := run env (handleAccountsChanged (Some (first :: others))) s in
    completion f = Fulfilled tt
    /\ walletAddress (final f) = Some first
    /\ provider (final f) = provider s
    /\ signer (final f) = signer s
    /\ posts (history f)
       = (if saving s then []
          else [(Some first, env 0 _ (Fetch (PostSession (Some first))))])
    /\ exists b' a' : Element,
         button (final f) = Some b'
         /\ addressTarget (final f) = Some a'
         /\ textContent b' = lit "Disconnect"
         /\ bound HandleDisconnectClick b' = true
         /\ bound HandleConnectClick b' = false
         /\ data_connectedAddress b' = Some first
         /\ textContent a' = shortAddress (Some first)
         /\ data_state a' = Some (lit "connected").
Proof.
  intros env s b a first others Hb Ha f. subst f. run_walk.
  all: lazymatch goal with
       | |- _ /\ walletAddress (renderConnectedState ?s0) = _ /\ _ =>
           destruct (renderConnectedState_frame s0) as (-> & -> & -> & _);
           split; [reflexivity|]; split; [reflexivity|];
           split; [reflexivity|]; split; [reflexivity|];
           split; [first [reflexivity | congruence]|];
           exact (renderConnectedState_page s0 b a Hb Ha)
       end.
Qed.

Section ListFacts.
Variable A : Type.
Variable eqb : A -> A -> bool.
Hypothesis eqb_eq : forall x y, eqb x y = true <-> x = y.


Lemma existsb_add_once (c : A) (l : list A) : existsb (eqb c) (add_once eqb c l) = true.
Proof.
  unfold add_once. destruct (existsb (eqb c) l) eqn:E; [exact E|].
  rewrite existsb_app. cbn. replace (eqb c c) with true; [apply orb_true_r|].
  symmetry. now apply eqb_eq.
Qed.

Lemma existsb_drop_other (c c' : A) (l : list A) :
  c <> c' -> existsb (eqb c) (drop_all eqb c' l) = existsb (eqb c) l.
Proof.
  intros Hne. unfold drop_all. induction l as [|x rest IH]; cbn; [reflexivity|].
  destruct (eqb c' x) eqn:E; cbn.
  - apply eqb_eq in E. subst x.
    replace (eqb c c') with false; [exact IH|].
    symmetry. destruct (eqb c c') eqn:E'; [|reflexivity].
    apply eqb_eq in E'. contradiction.
  - now rewrite IH.
Qed.

Lemma drop_idempotent (c : A) (l : list A) : drop_all eqb c (drop_all eqb c l) = drop_all eqb c l.
Proof.
  unfold drop_all. induction l as [|x rest IH]; cbn; [reflexivity|].
  destruct (eqb c x) eqn:E; cbn; [exact IH|]. now rewrite E, IH.
Qed.

Lemma swap_idempotent (c c' : A) (l : list A) :
  c <> c' ->
  drop_all eqb c' (add_once eqb c (drop_all eqb c' (add_once eqb c l))) = drop_all eqb c' (add_once eqb c l)
  /\ add_once eqb c (drop_all eqb c' (add_once eqb c (drop_all eqb c' l))) = add_once eqb c (drop_all eqb c' l).
Proof.
  intros Hne. split.
  - assert (H : existsb (eqb c) (drop_all eqb c' (add_once eqb c l)) = true).
    { rewrite existsb_drop_other by exact Hne. apply existsb_add_once. }
    unfold add_once at 1. rewrite H. apply drop_idempotent.
  - assert (H : existsb (eqb c) (add_once eqb c (drop_all eqb c' l)) = true)
      by apply existsb_add_once.
    assert (H' : drop_all eqb c' (add_once eqb c (drop_all eqb c' l)) = add_once eqb c (drop_all eqb c' l)).
    { unfold add_once. destruct (existsb (eqb c) (drop_all eqb c' l)).
      - apply drop_idempotent.
      - assert (Happ : forall l1 l2, drop_all eqb c' (l1 ++ l2) = drop_all eqb c' l1 ++ drop_all eqb c' l2)
          by (intros; apply filter_app).
        rewrite Happ, drop_idempotent. f_equal. unfold drop_all. cbn.
        replace (eqb c' c) with false; [reflexivity|].
        symmetry. destruct (eqb c' c) eqn:E'; [|reflexivity].
        apply eqb_eq in E'. congruence. }
    rewrite H'. unfold add_once at 1. now rewrite H.
Qed.
End ListFacts.

Lemma handler_eqb_eq (x y : Handler) : handler_eqb x y = true <-> x = y.
Proof. destruct x, y; cbn; split; congruence. Qed.

(** What each rendering does to the button, and that doing it twice is
    doing it once. *)
Lemma element_ext (e e' : Element) :
  textContent e = textContent e' ->
  classList e = classList e' ->
  click_listeners e = click_listeners e' ->
  data_connectedAddress e = data_connectedAddress e' ->
  data_state e = data_state e' ->
  data_projectId e = data_projectId e' ->
  e = e'.
Proof. destruct e, e'; cbn; intros; subst; reflexivity. Qed.

Lemma swap_on_button (t : jsstring) (d : option jsstring)
    (keep_class drop_class : string) (keep gone : Handler) (b : Element) :
  keep_class <> drop_class ->
  keep <> gone ->
  set_data_connectedAddress d
    (addEventListener keep
       (removeEventListener gone
          (classList_remove drop_class
             (classList_add keep_class
                (set_textContent t
                   (set_data_connectedAddress d
                      (addEventListener keep
                         (removeEventListener gone
                            (classList_remove drop_class
                               (classList_add keep_class
                                  (set_textContent t b)))))))))))
  = set_data_connectedAddress d
      (addEventListener keep
         (removeEventListener gone
            (classList_remove drop_class
               (classList_add keep_class (set_textContent t b))))).
Proof.
  intros Hclass Hclick.
  destruct (swap_idempotent string String.eqb String.eqb_eq
              keep_class drop_class (classList b) Hclass) as (Hc & _).
  destruct (swap_idempotent Handler handler_eqb handler_eqb_eq
              keep gone (click_listeners b) Hclick) as (_ & Hl).
  unfold add_once, drop_all in Hc, Hl.
  apply element_ext;
    cbn [set_data_connectedAddress addEventListener removeEventListener
         classList_remove classList_add set_textContent
         textContent classList click_listeners data_connectedAddress data_state
         data_projectId];
    try reflexivity.
  - exact Hc.
  - exact Hl.
Qed.

Lemma set_twice (b1 a1 : option Element) (s : State) :
  set_addressTarget a1 (set_button b1 (set_addressTarget a1 (set_button b1 s)))
  = set_addressTarget a1 (set_button b1 s).
Proof. reflexivity. Qed.

Lemma mark_twice (v : option jsstring) (t : jsstring) (a : Element) :
  set_data_state v (set_textContent t (set_data_state v (set_textContent t a)))
  = set_data_state v (set_textContent t a).
Proof. reflexivity. Qed.

(** X16. Each rendering is idempotent: rendering the connected state, or
    the disconnected state with a label, a second time changes nothing,
    so no class and no click listener piles up. *)
Theorem rendering_twice_is_rendering_once :
  forall (s : State) (label : jsstring),
    renderConnectedState (renderConnectedState s) = renderConnectedState s
    /\ renderDisconnectedState label (renderDisconnectedState label s)
       = renderDisconnectedState label s.
Proof.
  intros s label. split.
  - unfold renderConnectedState at 2 3.
    destruct (button s) as [b|] eqn:Hb;
      [|unfold renderConnectedState; now rewrite Hb].
    destruct (addressTarget s) as [a|] eqn:Ha;
      [|unfold renderConnectedState; now rewrite Hb, Ha].
    unfold renderConnectedState.
    cbn beta iota zeta delta
      [button addressTarget walletAddress set_addressTarget set_button].
    rewrite (swap_on_button (lit "Disconnect")
               (Some (to_string (walletAddress s)))
               "ui-button--secondary" "ui-button--primary"
               HandleDisconnectClick HandleConnectClick b)
      by discriminate.
    rewrite mark_twice.
    apply set_twice.
  - unfold renderDisconnectedState at 2 3.
    destruct (button s) as [b|] eqn:Hb;
      [|unfold renderDisconnectedState; now rewrite Hb].
    destruct (addressTarget s) as [a|] eqn:Ha;
      [|unfold renderDisconnectedState; now rewrite Hb, Ha].
    unfold renderDisconnectedState.
    cbn beta iota zeta delta
      [button addressTarget walletAddress set_addressTarget set_button].
    rewrite (swap_on_button label None
               "ui-button--primary" "ui-button--secondary"
               HandleConnectClick HandleDisconnectClick b)
      by discriminate.
    rewrite mark_twice.
    apply set_twice.
Qed.

(** X17. The label of an address is never longer than 13 code units: an
    address shorter than ten keeps its length, any other is shown in
    exactly 13. *)
Theorem short_address_length :
  forall v : option jsstring,
    length (shortAddress v) <= 13
    /\ (forall a : jsstring,
          v = Some a ->
          length (shortAddress v) = if length a <? 10 then length a else 13).
Proof.
  assert (H : forall a : jsstring,
             length (shortAddress (Some a))
             = if length a <? 10 then length a else 13).
  { intros a. rewrite shortAddress_cases.
    destruct (length a <? 10) eqn:E; [reflexivity|].
    apply Nat.ltb_ge in E. unfold first_chars, last_chars, short_separator.
    rewrite !length_app, length_firstn, length_skipn. cbn [length]. lia. }
  intros [a|].
  - split.
    + rewrite H. destruct (length a <? 10) eqn:E; [|lia].
      apply Nat.ltb_lt in E. lia.
    + intros a' [= <-]. apply H.
  - split; [unfold shortAddress; cbn; lia|]. intros a' [=].
Qed.

Lemma createModal_frame (projectId : option jsstring) (s : State) :
  button (snd (createModal projectId s)) = button s
  /\ addressTarget (snd (createModal projectId s)) = addressTarget s
  /\ window_ethereum (snd (createModal projectId s)) = window_ethereum s
  /\ accountsChanged_listener (snd (createModal projectId s))
     = accountsChanged_listener s.
Proof.
  unfold createModal. destruct (negb (truthy projectId)); [repeat split|].
  destruct (window_Web3Modal s) as [[m|]|]; repeat split.
Qed.

Lemma render_frame (s : State) (label : jsstring) :
  (modal (renderConnectedState s) = modal s
   /\ accountsChanged_listener (renderConnectedState s)
      = accountsChanged_listener s
   /\ window_ethereum (renderConnectedState s) = window_ethereum s)
  /\ (modal (renderDisconnectedState label s) = modal s
      /\ accountsChanged_listener (renderDisconnectedState label s)
         = accountsChanged_listener s
      /\ window_ethereum (renderDisconnectedState label s) = window_ethereum s).
Proof.
  unfold renderConnectedState, renderDisconnectedState.
  destruct (button s), (addressTarget s); repeat split.
Qed.

(** Rendering touches the button and the address label only. *)
Ltac render_kept :=
  repeat match goal with
         | |- context [modal (renderConnectedState ?s)] =>
             rewrite (proj1 (proj1 (render_frame s [])))
         | |- context [accountsChanged_listener (renderConnectedState ?s)] =>
             rewrite (proj1 (proj2 (proj1 (render_frame s []))))
         | |- context [window_ethereum (renderConnectedState ?s)] =>
             rewrite (proj2 (proj2 (proj1 (render_frame s []))))
         | |- context [modal (renderDisconnectedState ?l ?s)] =>
             rewrite (proj1 (proj2 (render_frame s l)))
         | |- context [accountsChanged_listener (renderDisconnectedState ?l ?s)] =>
             rewrite (proj1 (proj2 (proj2 (render_frame s l))))
         | |- context [window_ethereum (renderDisconnectedState ?l ?s)] =>
             rewrite (proj2 (proj2 (proj2 (render_frame s l))))
         end.

(** X18. On a page with the ethers library, the button and the address
    label, [init] issues the GET and no other request, never throws, keeps
    the modal [createModal] returned, and leaves exactly one of the two
    click handlers bound: the disconnect handler when the session carried
    an address, the connect handler otherwise. It listens to
    [accountsChanged] exactly when [window.ethereum] has [on]. *)
Theorem init_binds_one_handler :
  forall (env : Env) (s : State) (b a : Element),
    window_ethers s = true ->
    button s = Some b ->
    addressTarget s = Some a ->
    let f := run env init s in
    let connected := match hydrated env with Some _ => true | None => false end in
    completion f = Fulfilled tt
    /\ fetches (history f) = [GetSession]
    /\ modal (final f) = fst (createModal (data_projectId b) s)
    /\ accountsChanged_listener (final f)
       = accountsChanged_listener s
         || match window_ethereum s with
            | Some eth => has_on eth
            | None => false
            end
    /\ exists b' : Element,
         button (final f) = Some b'
         /\ bound HandleDisconnectClick b' = connected
         /\ bound HandleConnectClick b' = negb connected.
Proof.
  intros env s b a He Hb Ha f connected. subst f connected.
  unfold hydrated, session_address. exec. rewrite He. exec. rewrite Hb. exec.
  destruct (createModal_frame (data_projectId b) s) as (_ & Ha1 & Hw1 & Hl1).
  rewrite Ha in Ha1. rewrite <- Hw1, <- Hl1.
  destruct (createModal (data_projectId b) s) as [m s1]. cbn [fst snd] in *.
  repeat progress (render_kept; cbn [window_ethereum set_button set_modal
    set_walletAddress log]).
  run_walk.
  all: split; [reflexivity|]; split; [reflexivity|].
  all: split; [repeat progress (cbn; render_kept); reflexivity|].
  all: split;
    [ lazymatch goal with
      | H : window_ethereum ?t = ?v |- _ =>
          let Hw := fresh "Hw" in
          assert (Hw : window_ethereum s1 = v)
            by (rewrite <- H; repeat progress (cbn; render_kept); reflexivity);
          rewrite Hw
      end;
      repeat progress (cbn; render_kept);
      repeat match goal with
             | H : has_on _ = _ |- _ => rewrite H; clear H
             end;
      rewrite ?orb_true_r, ?orb_false_r; reflexivity
    | ].
  all: lazymatch goal with
       | Hnone : button (renderConnectedState ?s2) = None |- _ =>
           destruct (renderConnectedState_page s2 _ a eq_refl Ha1)
             as (? & ? & Hsome & _);
           rewrite Hsome in Hnone; discriminate Hnone
       | Hsome : button (renderConnectedState (set_walletAddress (Some ?addr) ?s0))
                 = Some ?e |- _ =>
           destruct (hydrated_page s0 _ a e addr eq_refl Ha1 Hsome)
             as (b' & a' & Hb' & _ & _ & Hd & Hc & _);
           exists b'; split; [exact Hb'|]; split; assumption
       | |- exists _, button (renderDisconnectedState ?l ?s0) = _ /\ _ =>
           destruct (renderDisconnectedState_page l s0 _ a eq_refl Ha1)
             as (b' & a' & Hb' & _ & _ & Hc & Hd & _);
           exists b'; split; [exact Hb'|]; split; assumption
       end.
Qed.

(** X19. Without the ethers library or without the button, [init] awaits
    nothing and binds nothing: the page, the modal and the listeners are
    as before; a missing library adds one line to the console, a missing
    button none. *)
Theorem init_without_ethers_or_button :
  forall (env : Env) (s : State),
    window_ethers s = false \/ button s = None ->
    let f := run env init s in
    history f = []
    /\ completion f = Fulfilled tt
    /\ button (final f) = button s
    /\ addressTarget (final f) = addressTarget s
    /\ modal (final f) = modal s
    /\ accountsChanged_listener (final f) = accountsChanged_listener s
    /\ console (final f)
       = console s
           ++ (if window_ethers s then []
               else [(LogError,
                      "Ethers library missing; wallet connect disabled."%string)]).
Proof.
  intros env s H f. subst f. exec.
  destruct (window_ethers s) eqn:He; exec.
  - destruct H as [H|H]; [discriminate|]. rewrite H. exec.
    rewrite H, app_nil_r. repeat split.
  - repeat split.
Qed.

Lemma hydration_renders_what_the_server_says_witness :
  walletAddress
    (final (run (Samples.env_ok (Some Samples.session_body)) hydrateFromServer
              Samples.wallet_loaded))
  = Some Samples.sample_address
  /\ walletAddress (final (run Samples.env_offline hydrateFromServer
                             Samples.wallet_connected))
     = Some Samples.sample_address
  /\ fetches (history (run Samples.env_offline hydrateFromServer
                         Samples.wallet_connected))
     = [GetSession].
Proof.
  destruct (hydration_renders_what_the_server_says
              (Samples.env_ok (Some Samples.session_body)) Samples.wallet_loaded
              _ _ eq_refl eq_refl) as (_ & _ & Hok & _).
  destruct (hydration_renders_what_the_server_says
              Samples.env_offline Samples.wallet_connected _ _ eq_refl eq_refl)
    as (_ & Hget & Hkept & _).
  split; [exact Hok|]. split; [exact Hkept|exact Hget].
Defined.

Lemma connect_click_ends_connected_or_reverted_witness :
  completion (run Samples.env_offline handleConnectClick Samples.wallet_loaded)
  = Fulfilled tt.
Proof.
  exact (proj1 (connect_click_ends_connected_or_reverted Samples.env_offline
                  Samples.wallet_loaded _ _ eq_refl eq_refl)).
Defined.

Lemma connect_click_without_wallet_witness :
  history (run Samples.env_offline handleConnectClick Samples.page_without_wallet)
  = []
  /\ console (final (run Samples.env_offline handleConnectClick
                       Samples.page_without_wallet))
     = [(LogError, "Wallet connect failed"%string)].
Proof.
  destruct (connect_click_without_wallet Samples.env_offline
              Samples.page_without_wallet eq_refl eq_refl eq_refl)
    as (Hnone & Hfinal).
  split; [exact Hnone|]. rewrite Hfinal. reflexivity.
Defined.

Lemma accounts_changed_adopts_first_account_witness :
  walletAddress
    (final (run (Samples.env_ok None)
              (handleAccountsChanged (Some [Samples.sample_address; lit "0x01"]))
              Samples.wallet_loaded))
  = Some Samples.sample_address.
Proof.
  exact (proj1 (proj2 (accounts_changed_adopts_first_account (Samples.env_ok None)
                         Samples.wallet_loaded _ _ Samples.sample_address
                         [lit "0x01"] eq_refl eq_refl))).
Defined.

Lemma init_binds_one_handler_witness :
  fetches (history (run (Samples.env_ok (Some Samples.session_body)) init
                      Samples.wallet_loaded))
  = [GetSession]
  /\ accountsChanged_listener
       (final (run (Samples.env_ok (Some Samples.session_body)) init
                 Samples.wallet_loaded))
     = true.
Proof.
  destruct (init_binds_one_handler (Samples.env_ok (Some Samples.session_body))
              Samples.wallet_loaded _ _ eq_refl eq_refl eq_refl)
    as (_ & Hget & _ & Hon & _).
  split; [exact Hget|exact Hon].
Defined.

Lemma init_without_ethers_or_button_witness :
  history (run Samples.env_offline init
             (set_button None Samples.wallet_loaded)) = []
  /\ console (final (run Samples.env_offline init
                       (set_button None Samples.wallet_loaded))) = [].
Proof.
  destruct (init_without_ethers_or_button Samples.env_offline
              (set_button None Samples.wallet_loaded) (or_intror eq_refl))
    as (Hnone & _ & _ & _ & _ & _ & Hconsole).
  split; [exact Hnone|exact Hconsole].
Defined.

End WalletExtras.
